(** * Inventory service and MCP server: model and verified properties

    Shallow embedding of [inventory-service/main.py] (an in-memory stock
    mapping behind two HTTP endpoints) and of [mcp-server/main.py] (a
    front-end that turns a language-model intent into calls against that
    mapping), followed by the properties the specification states. *)

From Stdlib Require Import ZArith String Ascii List Lia.
From stdpp Require Import base option gmap sets list strings pretty.

Local Open Scope string_scope.
Local Open Scope Z_scope.

(** Errors raised with [raise HTTPException(status_code=..., detail=...)]. *)
Record HTTPException := mkHTTPException {
  status_code : Z;
  detail : string
}.

Definition HTTP_400_BAD_REQUEST : Z := 400.
Definition HTTP_500_INTERNAL_SERVER_ERROR : Z := 500.
Definition HTTP_503_SERVICE_UNAVAILABLE : Z := 503.

(** ** inventory-service/main.py *)
Module InventoryService.

(** The module-level dictionary [inventory]. *)
Definition inventory : gmap string Z :=
  <["pants" := 15]> (<["tshirts" := 20]> ∅).

(** The two names every operation is supposed to keep as the key set. *)
Definition known_items : gset string := {["tshirts"; "pants"]}.

Record InventoryUpdateRequest := mkRequest {
  item : string;
  change : Z
}.

(** [str.lower] on one character.  Identifiers are sequences of bytes
    here; the letters [A]..[Z] are mapped to [a]..[z] and every other
    byte is kept.  Python also lowers cased letters outside ASCII, but
    none of them becomes a string made of the letters of the two keys, so
    the test [item_name not in inventory] is decided the same way. *)
Definition lower_ascii (c : ascii) : ascii :=
  let n := N_of_ascii c in
  if ((65 <=? n) && (n <=? 90))%N then ascii_of_N (n + 32) else c.

Fixpoint lower (s : string) : string :=
  match s with
  | EmptyString => EmptyString
  | String c s' => String (lower_ascii c) (lower s')
  end.

(** The two [HTTPException]s of [update_inventory], named after the error
    kinds of the specification. *)
Definition InvalidItem (request_item : string) : HTTPException :=
  {| status_code := HTTP_400_BAD_REQUEST;
     detail := "Invalid item: '" ++ request_item
               ++ "'. Only 'tshirts' and 'pants' are supported." |}.

Definition NegativeStockRejected (item_name : string) (current change_amount : Z)
  : HTTPException :=
  {| status_code := HTTP_400_BAD_REQUEST;
     detail := "Cannot reduce '" ++ item_name ++ "' stock below zero. Current: "
               ++ pretty current ++ ", Attempted change: " ++ pretty change_amount |}.

(** [GET /inventory]: returns the dictionary; the state is not touched. *)
Definition get_inventory (inv : gmap string Z) : gmap string Z * gmap string Z :=
  (inv, inv).

(** [POST /inventory].  The first component is what the handler raises or
    returns, the second is the dictionary after the call. *)
Definition update_inventory (request : InventoryUpdateRequest) (inv : gmap string Z)
  : (HTTPException + gmap string Z) * gmap string Z :=
  let item_name := lower (item request) in
  let change_amount := change request in
  match inv !! item_name with
  | None => (inl (InvalidItem (item request)), inv)
  | Some current =>
      let new_stock := current + change_amount in
      if new_stock <? 0
      then (inl (NegativeStockRejected item_name current change_amount), inv)
      else
        let inv' := <[item_name := new_stock]> inv in
        (inr inv', inv')
  end.

(** A client call against the service. *)
Inductive call :=
| Read
| Update (request : InventoryUpdateRequest).

Definition step (c : call) (inv : gmap string Z) : gmap string Z :=
  match c with
  | Read => snd (get_inventory inv)
  | Update request => snd (update_inventory request inv)
  end.

(** The dictionary after a sequence of calls, oldest first. *)
Fixpoint run (cs : list call) (inv : gmap string Z) : gmap string Z :=
  match cs with
  | [] => inv
  | c :: cs' => run cs' (step c inv)
  end.

(** Whether the service accepts an update in a given state. *)
Definition accepted (request : InventoryUpdateRequest) (inv : gmap string Z) : bool :=
  match fst (update_inventory request inv) with
  | inr _ => true
  | inl _ => false
  end.

(** Sum of the deltas of the accepted updates of [cs] that target the
    key [k], the sequence being played from [inv]. *)
Fixpoint accepted_sum (k : string) (cs : list call) (inv : gmap string Z) : Z :=
  match cs with
  | [] => 0
  | c :: cs' =>
      (match c with
       | Update request =>
           if accepted request inv && bool_decide (lower (item request) = k)
           then change request else 0
       | Read => 0
       end) + accepted_sum k cs' (step c inv)
  end.

End InventoryService.

(** ** mcp-server/main.py *)
Module McpServer.

Definition INVENTORY_SERVICE_BASE_URL : string := "http://localhost:8000".

(** *** Python values

    What [json.loads] and [response.json()] return.  A float is carried
    by its [repr]; a dictionary keeps its entries in insertion order. *)
#[local] Unset Elimination Schemes.
Inductive pyval :=
| PyNone
| PyBool (b : bool)
| PyInt (n : Z)
| PyFloat (repr : string)
| PyStr (s : string)
| PyList (items : list pyval)
| PyDict (entries : list (string * pyval)).
#[local] Set Elimination Schemes.

(** [bool(v)], as in [if item:]. *)
Definition py_truthy (v : pyval) : bool :=
  match v with
  | PyNone => false
  | PyBool b => b
  | PyInt n => negb (n =? 0)
  | PyFloat repr => negb (String.eqb repr "0.0" || String.eqb repr "-0.0")
  | PyStr s => negb (String.eqb s EmptyString)
  | PyList items => match items with [] => false | _ => true end
  | PyDict entries => match entries with [] => false | _ => true end
  end.

(** [v is None]. *)
Definition is_None (v : pyval) : bool :=
  match v with PyNone => true | _ => false end.

(** [v == s] for a string literal [s]. *)
Definition py_eq_str (v : pyval) (s : string) : bool :=
  match v with PyStr t => String.eqb t s | _ => false end.

(** Lists and dictionaries cannot be dictionary keys. *)
Definition hashable (v : pyval) : bool :=
  match v with PyList _ | PyDict _ => false | _ => true end.

(** [type(v).__name__]. *)
Definition py_type_name (v : pyval) : string :=
  match v with
  | PyNone => "NoneType"
  | PyBool _ => "bool"
  | PyInt _ => "int"
  | PyFloat _ => "float"
  | PyStr _ => "str"
  | PyList _ => "list"
  | PyDict _ => "dict"
  end.

(** [key in d] and [d.get(key, default)] for a string key. *)
Fixpoint dict_has (d : list (string * pyval)) (key : string) : bool :=
  match d with
  | [] => false
  | (k, _) :: d' => String.eqb k key || dict_has d' key
  end.

Fixpoint dict_get (d : list (string * pyval)) (key : string) (default : pyval)
  : pyval :=
  match d with
  | [] => default
  | (k, v) :: d' => if String.eqb k key then v else dict_get d' key default
  end.

(** *** HTTP responses and exceptions *)

(** The attributes of an [httpx.Response] the code reads.  [response_json]
    is what [response.json()] returns, or the message of the
    [JSONDecodeError] it raises when the body is not JSON. *)
Record Response := mkResponse {
  response_status : Z;
  response_text : string;
  response_json : string + pyval
}.

Inductive exn :=
| RequestError (exc : string)            (* httpx.RequestError, with str(exc) *)
| HTTPStatusError (response : Response)  (* httpx.HTTPStatusError *)
| HTTPExc (e : HTTPException)            (* fastapi.HTTPException *)
| Exception (type_name message : string). (* any other exception *)

(** *** The world outside the handler *)

(** Requests that leave the process. *)
Inductive event :=
| GeminiPost (prompt : string)
| InventoryGet
| InventoryPost (item change : pyval).

(** How one exchange with the Gemini endpoint ends, up to the point where
    the text of the first candidate is in hand. *)
Inductive gemini_exchange :=
| PostFailed (exc : string)
    (* client.post raises httpx.RequestError (the 30 s timeout included) *)
| StatusFailed (response : Response)
    (* response.raise_for_status() raises *)
| Unexpected (type_name message : string)
    (* any other exception of the try body, e.g. from response.json() *)
| NoContent (raw : string)
    (* candidates / content / parts is missing or empty;
       raw is json.dumps(result, indent=2) *)
| ContentText (llm_response_text : string).

(** Behaviour of the interpreter and of the libraries that the source does
    not fix. *)
Record Library := mkLibrary {
  repr_str : string → string;          (* repr() of a str *)
  json_loads : string → option pyval;  (* None: json.JSONDecodeError *)
  json_dumps : pyval → string;         (* body text of a JSON response *)
  validate_update :
    pyval → pyval → pyval + InventoryService.InventoryUpdateRequest;
    (* pydantic on the body of POST /inventory: the 422 detail, or the
       validated request *)
  unhashable_message : pyval → string; (* str(e) of the TypeError of d.get(v) *)
  validation_message : pyval → string  (* str(e) of pydantic's ValidationError *)
}.

Record Environment := mkEnvironment {
  GEMINI_API_KEY : string;
  gemini_post : string → gemini_exchange;
  inventory_link : option string
    (* Some exc: the inventory service cannot be reached and the client
       raises httpx.RequestError exc *)
}.

(** The dictionary of the inventory service and the requests sent so far,
    oldest first. *)
Record World := mkWorld {
  store : gmap string Z;
  trace : list event
}.

(** Computations that read and change the world and may raise. *)
Definition M (A : Type) : Type := World → (exn + A) * World.

#[global] Instance M_ret : MRet M := λ A x w, (inr x, w).

#[global] Instance M_bind : MBind M := λ A B f m w,
  match m w with
  | (inl e, w') => (inl e, w')
  | (inr x, w') => f x w'
  end.

Definition raise {A : Type} (e : exn) : M A := λ w, (inl e, w).

Definition emit (ev : event) : M unit :=
  λ w, (inr (), {| store := store w; trace := trace w ++ [ev] |}).

(** [try: body  except ... : handler]. *)
Definition try_except {A : Type} (body : M A) (handler : exn → M A) : M A :=
  λ w, match body w with
       | (inl e, w') => handler e w'
       | (inr x, w') => (inr x, w')
       end.

(** [response.raise_for_status()]. *)
Definition raise_for_status (response : Response) : M unit :=
  if (200 <=? response_status response) && (response_status response <? 300)
  then mret ()
  else raise (HTTPStatusError response).

Record NaturalLanguageQuery := mkQuery { query : string }.

Record MCPResponse := mkMCPResponse {
  message : string;
  inventory_state : list (string * pyval);
  error : option string
}.

Definition dq : string := String "034" EmptyString.
Definition nl : string := String "010" EmptyString.
Definition q (s : string) : string := dq ++ s ++ dq.

(** [llm_prompt.format(user_query=user_query)]. *)
Definition llm_prompt_format (user_query : string) : string :=
  String.concat nl
    [ EmptyString;
      "You are an intelligent assistant that converts natural language inventory requests into structured JSON commands for an Inventory Management System.";
      "The inventory system manages only two items: 'tshirts' and 'pants'.";
      EmptyString;
      "Your task is to determine the 'operation' (GET or POST), the 'item' (if applicable), and the 'change' amount (if applicable) based on the user's query.";
      "If the operation is 'GET', 'item' and 'change' should be null.";
      "If the operation is 'POST', 'item' and 'change' are required.";
      "Always provide a 'reasoning' for your decision.";
      EmptyString;
      "Here are some examples:";
      EmptyString;
      "User Query: " ++ q "I sold 3 t shirts";
      "JSON Response: {" ++ q "operation" ++ ": " ++ q "POST" ++ ", " ++ q "item" ++ ": "
        ++ q "tshirts" ++ ", " ++ q "change" ++ ": -3, " ++ q "reasoning" ++ ": "
        ++ q "User indicates selling, which means reducing stock. Item is 'tshirts', amount is 3."
        ++ "}";
      EmptyString;
      "User Query: " ++ q "Add 5 pants";
      "JSON Response: {" ++ q "operation" ++ ": " ++ q "POST" ++ ", " ++ q "item" ++ ": "
        ++ q "pants" ++ ", " ++ q "change" ++ ": 5, " ++ q "reasoning" ++ ": "
        ++ q "User indicates adding stock. Item is 'pants', amount is 5." ++ "}";
      EmptyString;
      "User Query: " ++ q "How many pants and shirts do I have?";
      "JSON Response: {" ++ q "operation" ++ ": " ++ q "GET" ++ ", " ++ q "item"
        ++ ": null, " ++ q "change" ++ ": null, " ++ q "reasoning" ++ ": "
        ++ q "User is asking for current stock levels, which is a GET operation." ++ "}";
      EmptyString;
      "User Query: " ++ q "What's the stock of tshirts?";
      "JSON Response: {" ++ q "operation" ++ ": " ++ q "GET" ++ ", " ++ q "item" ++ ": "
        ++ q "tshirts" ++ ", " ++ q "change" ++ ": null, " ++ q "reasoning" ++ ": "
        ++ q "User is asking for the stock of a specific item, which is a GET operation."
        ++ "}";
      EmptyString;
      "User Query: " ++ q "Increase tshirts by 10";
      "JSON Response: {" ++ q "operation" ++ ": " ++ q "POST" ++ ", " ++ q "item" ++ ": "
        ++ q "tshirts" ++ ", " ++ q "change" ++ ": 10, " ++ q "reasoning" ++ ": "
        ++ q "User wants to increase stock. Item is 'tshirts', amount is 10." ++ "}";
      EmptyString;
      "User Query: " ++ q "Reduce pants by 2";
      "JSON Response: {" ++ q "operation" ++ ": " ++ q "POST" ++ ", " ++ q "item" ++ ": "
        ++ q "pants" ++ ", " ++ q "change" ++ ": -2, " ++ q "reasoning" ++ ": "
        ++ q "User wants to reduce stock. Item is 'pants', amount is 2." ++ "}";
      EmptyString;
      "User Query: " ++ q "Check inventory";
      "JSON Response: {" ++ q "operation" ++ ": " ++ q "GET" ++ ", " ++ q "item"
        ++ ": null, " ++ q "change" ++ ": null, " ++ q "reasoning" ++ ": "
        ++ q "User is asking for general inventory status, which is a GET operation." ++ "}";
      EmptyString;
      "User Query: " ++ q user_query;
      "JSON Response:";
      EmptyString ].

Section Deployment.

Context (lib : Library) (env : Environment).

(** [repr(v)] and [str(v)]. *)
Fixpoint py_repr (v : pyval) : string :=
  match v with
  | PyNone => "None"
  | PyBool true => "True"
  | PyBool false => "False"
  | PyInt n => pretty n
  | PyFloat repr => repr
  | PyStr s => repr_str lib s
  | PyList items => "[" ++ String.concat ", " (map py_repr items) ++ "]"
  | PyDict entries =>
      "{" ++ String.concat ", "
               (map (λ kv, repr_str lib (fst kv) ++ ": " ++ py_repr (snd kv)) entries)
      ++ "}"
  end.

Definition py_str (v : pyval) : string :=
  match v with
  | PyStr s => s
  | _ => py_repr v
  end.

(** *** The inventory service as seen over HTTP *)

Definition json_response (status : Z) (body : pyval) : Response :=
  {| response_status := status;
     response_text := json_dumps lib body;
     response_json := inr body |}.

(** A handler that fails outside an [HTTPException]: status 500 and a
    body that is not JSON. *)
Definition internal_server_error : Response :=
  {| response_status := 500;
     response_text := "Internal Server Error";
     response_json := inl "Expecting value: line 1 column 1 (char 0)" |}.

(** The response models [InventoryResponse] and [InventoryUpdateResponse]:
    both fields are required. *)
Definition inventory_response (inv : gmap string Z) : Response :=
  match inv !! "tshirts", inv !! "pants" with
  | Some t, Some p =>
      json_response 200 (PyDict [("tshirts", PyInt t); ("pants", PyInt p)])
  | _, _ => internal_server_error
  end.

Definition error_response (e : HTTPException) : Response :=
  json_response (status_code e) (PyDict [("detail", PyStr (detail e))]).

(** [await client.get(INVENTORY_SERVICE_BASE_URL + "/inventory")]. *)
Definition client_get_inventory : M Response :=
  _ ← emit InventoryGet;
  match inventory_link env with
  | Some exc => raise (RequestError exc)
  | None => λ w,
      let '(inv, store') := InventoryService.get_inventory (store w) in
      (inr (inventory_response inv), {| store := store'; trace := trace w |})
  end.

(** [await client.post(INVENTORY_SERVICE_BASE_URL + "/inventory", json=post_data)]. *)
Definition client_post_inventory (item change : pyval) : M Response :=
  _ ← emit (InventoryPost item change);
  match inventory_link env with
  | Some exc => raise (RequestError exc)
  | None =>
      match validate_update lib item change with
      | inl detail422 =>
          mret (json_response 422 (PyDict [("detail", detail422)]))
      | inr request => λ w,
          match InventoryService.update_inventory request (store w) with
          | (inl e, store') =>
              (inr (error_response e), {| store := store'; trace := trace w |})
          | (inr inv, store') =>
              (inr (inventory_response inv), {| store := store'; trace := trace w |})
          end
      end
  end.

(** [response.json()]. *)
Definition json_of (response : Response) : M pyval :=
  match response_json response with
  | inr v => mret v
  | inl msg => raise (Exception "JSONDecodeError" msg)
  end.

(** [v.get(...)] needs a dictionary. *)
Definition as_dict (v : pyval) : M (list (string * pyval)) :=
  match v with
  | PyDict d => mret d
  | _ => raise (Exception "AttributeError"
                  ("'" ++ py_type_name v ++ "' object has no attribute 'get'"))
  end.

(** [MCPResponse(message=message, inventory_state=inventory_state)]: the
    field [inventory_state] is declared [dict]. *)
Definition make_MCPResponse (message : string) (inventory_state : pyval)
  : M MCPResponse :=
  match inventory_state with
  | PyDict d =>
      mret {| message := message; inventory_state := d; error := None |}
  | _ => raise (Exception "ValidationError" (validation_message lib inventory_state))
  end.

(** *** The two functions of the server *)

Definition call_gemini_llm (prompt : string) : M pyval :=
  match GEMINI_API_KEY env with
  | EmptyString =>
      raise (HTTPExc
        {| status_code := HTTP_500_INTERNAL_SERVER_ERROR;
           detail := "Gemini API key is not configured. Please set the GEMINI_API_KEY environment variable." |})
  | _ =>
      try_except
        (_ ← emit (GeminiPost prompt);
         match gemini_post env prompt with
         | PostFailed exc => raise (RequestError exc)
         | StatusFailed response => raise (HTTPStatusError response)
         | Unexpected type_name message => raise (Exception type_name message)
         | ContentText llm_response_text =>
             match json_loads lib llm_response_text with
             | Some parsed_json => mret parsed_json
             | None =>
                 raise (HTTPExc
                   {| status_code := HTTP_500_INTERNAL_SERVER_ERROR;
                      detail := "Failed to parse JSON response from LLM. LLM returned malformed JSON. Raw text: "
                                ++ llm_response_text |})
             end
         | NoContent raw =>
             raise (Exception "ValueError"
               ("LLM response did not contain expected content structure. Raw result: "
                ++ raw))
         end)
        (λ e,
           match e with
           | RequestError exc =>
               raise (HTTPExc
                 {| status_code := HTTP_503_SERVICE_UNAVAILABLE;
                    detail := "Failed to connect to Gemini API: " ++ exc |})
           | HTTPStatusError response =>
               raise (HTTPExc
                 {| status_code := response_status response;
                    detail := "Gemini API returned an error: "
                              ++ response_text response |})
           | HTTPExc e => raise (HTTPExc e)
           | Exception type_name message =>
               raise (HTTPExc
                 {| status_code := HTTP_500_INTERNAL_SERVER_ERROR;
                    detail := "An unexpected error occurred during LLM call: "
                              ++ type_name ++ ": " ++ message |})
           end)
  end.

Definition process_natural_language_query (nl_query : NaturalLanguageQuery)
  : M MCPResponse :=
  let user_query := query nl_query in
  try_except
    (llm_parsed_data ← call_gemini_llm (llm_prompt_format user_query);
     d ← match llm_parsed_data with
         | PyDict d =>
             if dict_has d "operation" then mret d
             else raise (Exception "ValueError"
               ("LLM response is not a valid dictionary or missing 'operation' key. Received: "
                ++ py_str llm_parsed_data))
         | _ =>
             raise (Exception "ValueError"
               ("LLM response is not a valid dictionary or missing 'operation' key. Received: "
                ++ py_str llm_parsed_data))
         end;
     let operation := dict_get d "operation" PyNone in
     let item := dict_get d "item" PyNone in
     let change := dict_get d "change" PyNone in
     let reasoning :=
       dict_get d "reasoning" (PyStr "No specific reasoning provided by LLM.") in
     if py_eq_str operation "GET" then
       response ← client_get_inventory;
       _ ← raise_for_status response;
       inventory_state ← json_of response;
       message ←
         (if py_truthy item then
            entries ← as_dict inventory_state;
            item_count ←
              match item with
              | PyStr s => mret (dict_get entries s (PyInt 0))
              | _ =>
                  if hashable item then mret (PyInt 0)
                  else raise (Exception "TypeError" (unhashable_message lib item))
              end;
            mret ("Successfully retrieved inventory for " ++ py_str item ++ ": "
                  ++ py_str item_count ++ ". Reasoning: " ++ py_str reasoning)
          else
            mret ("Successfully retrieved inventory. Reasoning: "
                  ++ py_str reasoning));
       make_MCPResponse message inventory_state
     else if py_eq_str operation "POST" then
       if is_None item || is_None change then
         raise (HTTPExc
           {| status_code := HTTP_400_BAD_REQUEST;
              detail := "LLM failed to extract required 'item' or 'change' for POST operation. LLM Reasoning: "
                        ++ py_str reasoning |})
       else
         response ← client_post_inventory item change;
         _ ← raise_for_status response;
         updated_inventory ← json_of response;
         make_MCPResponse
           ("Successfully updated inventory for " ++ py_str item ++ " by "
            ++ py_str change ++ ". Reasoning: " ++ py_str reasoning)
           updated_inventory
     else
       raise (HTTPExc
         {| status_code := HTTP_400_BAD_REQUEST;
            detail := "LLM returned an unsupported operation: '" ++ py_str operation
                      ++ "'. LLM Reasoning: " ++ py_str reasoning |}))
    (λ e,
       match e with
       | RequestError exc =>
           raise (HTTPExc
             {| status_code := HTTP_503_SERVICE_UNAVAILABLE;
                detail := "Failed to connect to Inventory Service at "
                          ++ INVENTORY_SERVICE_BASE_URL ++ ": " ++ exc |})
       | HTTPStatusError response =>
           body ← json_of response;
           entries ← as_dict body;
           let error_detail :=
             dict_get entries "detail"
               (PyStr "No specific error detail from Inventory Service.") in
           raise (HTTPExc
             {| status_code := response_status response;
                detail := "Inventory Service returned an error: "
                          ++ py_str error_detail ++ " (HTTP "
                          ++ pretty (response_status response) ++ ")" |})
       | HTTPExc e => raise (HTTPExc e)
       | Exception type_name message =>
           raise (HTTPExc
             {| status_code := HTTP_500_INTERNAL_SERVER_ERROR;
                detail := "An unexpected error occurred: "
                          ++ type_name ++ ": " ++ message |})
       end).

End Deployment.

End McpServer.

(** ** A sample deployment

    A library and an environment on which the functions of the server can be
    evaluated: the model answers with the text [sample_text], which parses to
    the given intent, and the inventory service can be reached. *)
Module Sample.

Import McpServer.

Definition sample_text : string :=
  "{" ++ q "operation" ++ ": " ++ q "GET" ++ "}".

Definition library (intent : pyval) : Library :=
  {| repr_str := λ s, "'" ++ s ++ "'";
     json_loads := λ _, Some intent;
     json_dumps := λ _, "{}";
     validate_update := λ item change,
       match item, change with
       | PyStr s, PyInt n => inr (InventoryService.mkRequest s n)
       | _, _ => inl (PyList [])
       end;
     unhashable_message := λ v, "unhashable type: '" ++ py_type_name v ++ "'";
     validation_message := λ _, "1 validation error for MCPResponse" |}.

Definition environment (key : string) : Environment :=
  {| GEMINI_API_KEY := key;
     gemini_post := λ _, ContentText sample_text;
     inventory_link := None |}.

Definition world : World :=
  {| store := InventoryService.inventory; trace := [] |}.

End Sample.

Import InventoryService.

(** * Properties of the inventory service *)

Section InventoryFacts.

Implicit Types (inv : gmap string Z) (request : InventoryUpdateRequest).
Implicit Types (cs : list call) (k : string).

(** Every stored count is at least zero. *)
Definition nonneg inv : Prop := ∀ k v, inv !! k = Some v → 0 ≤ v.

Lemma lower_ascii_idem c : lower_ascii (lower_ascii c) = lower_ascii c.
Proof.
  destruct c as [[] [] [] [] [] [] [] []]; reflexivity.
Qed.

Lemma lower_idem s : lower (lower s) = lower s.
Proof.
  induction s as [|c s IH]; simpl; [reflexivity|].
  by rewrite lower_ascii_idem, IH.
Qed.

(** The three outcomes of [update_inventory], one equation each. *)
Lemma update_inventory_unknown request inv :
  inv !! lower (item request) = None →
  update_inventory request inv = (inl (InvalidItem (item request)), inv).
Proof. intros H. unfold update_inventory. by rewrite H. Qed.

Lemma update_inventory_negative request inv current :
  inv !! lower (item request) = Some current →
  current + change request < 0 →
  update_inventory request inv
  = (inl (NegativeStockRejected (lower (item request)) current (change request)), inv).
Proof.
  intros H Hneg. unfold update_inventory. rewrite H. simpl.
  destruct (Z.ltb_spec (current + change request) 0); [reflexivity | lia].
Qed.

Lemma update_inventory_ok request inv current :
  inv !! lower (item request) = Some current →
  0 ≤ current + change request →
  update_inventory request inv
  = (inr (<[lower (item request) := current + change request]> inv),
     <[lower (item request) := current + change request]> inv).
Proof.
  intros H Hpos. unfold update_inventory. rewrite H. simpl.
  destruct (Z.ltb_spec (current + change request) 0); [lia | reflexivity].
Qed.

(** Case analysis on a call to [update_inventory]. *)
Lemma update_inventory_cases request inv :
  (inv !! lower (item request) = None ∧
   update_inventory request inv = (inl (InvalidItem (item request)), inv))
  ∨ (∃ current, inv !! lower (item request) = Some current ∧
       current + change request < 0 ∧
       update_inventory request inv
       = (inl (NegativeStockRejected (lower (item request)) current (change request)), inv))
  ∨ (∃ current, inv !! lower (item request) = Some current ∧
       0 ≤ current + change request ∧
       update_inventory request inv
       = (inr (<[lower (item request) := current + change request]> inv),
          <[lower (item request) := current + change request]> inv)).
Proof.
  destruct (inv !! lower (item request)) as [current|] eqn:H.
  - destruct (Z.lt_ge_cases (current + change request) 0).
    + right; left. exists current. eauto using update_inventory_negative.
    + right; right. exists current. eauto using update_inventory_ok.
  - left. eauto using update_inventory_unknown.
Qed.

Lemma step_dom c inv : dom (step c inv) = dom inv.
Proof.
  destruct c as [|request]; [reflexivity|]. simpl.
  destruct (update_inventory_cases request inv)
    as [[_ ->] | [(current & _ & _ & ->) | (current & Hk & _ & ->)]];
    simpl; try reflexivity.
  rewrite dom_insert_L.
  apply (elem_of_dom_2 (D := gset string)) in Hk.
  apply subseteq_union_1_L, singleton_subseteq_l, Hk.
Qed.

Lemma run_dom cs inv : dom (run cs inv) = dom inv.
Proof.
  revert inv. induction cs as [|c cs IH]; intros inv; simpl; [reflexivity|].
  by rewrite IH, step_dom.
Qed.

Lemma step_nonneg c inv : nonneg inv → nonneg (step c inv).
Proof.
  intros Hinv. destruct c as [|request]; [exact Hinv|]. simpl.
  destruct (update_inventory_cases request inv)
    as [[_ ->] | [(current & _ & _ & ->) | (current & Hk & Hpos & ->)]];
    simpl; try exact Hinv.
  intros k v. rewrite lookup_insert. case_decide.
  - intros [= <-]. exact Hpos.
  - apply Hinv.
Qed.

Lemma run_nonneg cs inv : nonneg inv → nonneg (run cs inv).
Proof.
  revert inv. induction cs as [|c cs IH]; intros inv Hinv; simpl; [exact Hinv|].
  apply IH, step_nonneg, Hinv.
Qed.

Lemma inventory_dom : dom inventory = known_items.
Proof. vm_compute. reflexivity. Qed.

Lemma inventory_nonneg : nonneg inventory.
Proof.
  intros k v. unfold inventory.
  rewrite !lookup_insert, lookup_empty.
  repeat case_decide; intros [= <-]; lia.
Qed.

(** Effect of one call on the count stored under [k]. *)
Lemma step_lookup c inv k :
  step c inv !! k
  = (λ v, v + accepted_sum k [c] inv) <$> inv !! k.
Proof.
  assert (Hid : ∀ o : option Z, o = (λ v, v + (0 + 0)) <$> o).
  { intros [v|]; simpl; [f_equal; lia | reflexivity]. }
  destruct c as [|request]; simpl; [apply Hid|].
  unfold accepted.
  destruct (update_inventory_cases request inv)
    as [[_ ->] | [(current & _ & _ & ->) | (current & Hk & Hpos & ->)]];
    simpl; try apply Hid.
  rewrite lookup_insert. case_bool_decide as Heq; case_decide;
    [| congruence | congruence | apply Hid].
  subst k. rewrite Hk. simpl. f_equal. lia.
Qed.

Lemma run_lookup cs inv k :
  run cs inv !! k = (λ v, v + accepted_sum k cs inv) <$> inv !! k.
Proof.
  revert inv. induction cs as [|c cs IH]; intros inv.
  - simpl. destruct (inv !! k); simpl; [f_equal; lia | reflexivity].
  - change (run (c :: cs) inv) with (run cs (step c inv)).
    rewrite IH, step_lookup.
    assert (accepted_sum k (c :: cs) inv
            = accepted_sum k [c] inv + accepted_sum k cs (step c inv)) as ->
      by (simpl; lia).
    destruct (inv !! k); simpl; [f_equal; lia | reflexivity].
Qed.

End InventoryFacts.

(** * The claims about the inventory service *)

(** C1: whatever sequence of calls is played from the initial dictionary, and
    at every point of that sequence, each stored count is greater than or
    equal to zero (a rejected update leaves the dictionary as it was). *)
Theorem stock_never_negative (cs : list call) (n : nat) (k : string) (v : Z) :
  run (take n cs) inventory !! k = Some v → 0 ≤ v.
Proof. apply run_nonneg, inventory_nonneg. Qed.

Lemma stock_never_negative_witness :
  run (take 2 [Update (mkRequest "tshirts" (-3));
               Update (mkRequest "pants" (-100)); Read]) inventory !! "pants"
  = Some 15 ∧ 0 ≤ 15.
Proof.
  split; [vm_compute; reflexivity|].
  apply (stock_never_negative
           [Update (mkRequest "tshirts" (-3));
            Update (mkRequest "pants" (-100)); Read] 2 "pants" 15).
  vm_compute; reflexivity.
Defined.

(** C2: when the item is stored and its count plus the delta is negative,
    [update_inventory] raises the negative-stock error, an HTTP 400 whose
    detail gives the current count and the attempted change, and the
    dictionary after the call is the dictionary before it. *)
Theorem negative_stock_rejected
    (request : InventoryUpdateRequest) (inv : gmap string Z) (current : Z) :
  inv !! lower (item request) = Some current →
  current + change request < 0 →
  ∃ e, update_inventory request inv = (inl e, inv)
       ∧ e = NegativeStockRejected (lower (item request)) current (change request)
       ∧ status_code e = 400
       ∧ detail e = "Cannot reduce '" ++ lower (item request)
                    ++ "' stock below zero. Current: " ++ pretty current
                    ++ ", Attempted change: " ++ pretty (change request).
Proof.
  intros Hk Hneg. eexists. split; [by apply update_inventory_negative|].
  repeat split.
Qed.

Lemma negative_stock_rejected_witness :
  ∃ e, update_inventory (mkRequest "pants" (-100)) (<["tshirts" := 17]> inventory)
       = (inl e, <["tshirts" := 17]> inventory)
       ∧ e = NegativeStockRejected "pants" 15 (-100)
       ∧ status_code e = 400
       ∧ detail e
         = "Cannot reduce 'pants' stock below zero. Current: 15, Attempted change: -100".
Proof.
  apply (negative_stock_rejected (mkRequest "pants" (-100))
           (<["tshirts" := 17]> inventory) 15).
  - vm_compute; reflexivity.
  - simpl; lia.
Defined.

(** C3: with the key set being the two known items, an identifier whose
    lowercased form is not one of them is refused with the invalid-item
    error, an HTTP 400 whose detail quotes the identifier as it was sent, and
    the dictionary is unchanged; an identifier whose lowercased form is a
    known item is handled exactly as that item and never gets the
    invalid-item error. *)
Theorem invalid_item_rejected
    (request : InventoryUpdateRequest) (inv : gmap string Z) :
  dom inv = known_items →
  (lower (item request) ∉ known_items →
     update_inventory request inv = (inl (InvalidItem (item request)), inv)
     ∧ status_code (InvalidItem (item request)) = 400
     ∧ detail (InvalidItem (item request))
       = "Invalid item: '" ++ item request
         ++ "'. Only 'tshirts' and 'pants' are supported.")
  ∧ (lower (item request) ∈ known_items →
     update_inventory request inv
     = update_inventory (mkRequest (lower (item request)) (change request)) inv
     ∧ ∀ s, fst (update_inventory request inv) ≠ inl (InvalidItem s)).
Proof.
  intros Hdom. split.
  - intros Hk. rewrite <- Hdom in Hk. apply not_elem_of_dom in Hk.
    split; [by apply update_inventory_unknown | by split].
  - intros Hk. rewrite <- Hdom in Hk. apply elem_of_dom in Hk as [current Hk].
    split.
    + unfold update_inventory. simpl. by rewrite lower_idem, Hk.
    + intros s.
      destruct (update_inventory_cases request inv)
        as [[Hn _] | [(c & _ & _ & ->) | (c & _ & _ & ->)]]; simpl.
      * congruence.
      * unfold NegativeStockRejected, InvalidItem. simpl. discriminate.
      * discriminate.
Qed.

Lemma invalid_item_rejected_witness :
  (update_inventory (mkRequest "shoes" 1) inventory
   = (inl (InvalidItem "shoes"), inventory)
   ∧ status_code (InvalidItem "shoes") = 400
   ∧ detail (InvalidItem "shoes")
     = "Invalid item: 'shoes'. Only 'tshirts' and 'pants' are supported.")
  ∧ (update_inventory (mkRequest "TShirts" (-3)) inventory
     = update_inventory (mkRequest "tshirts" (-3)) inventory
     ∧ ∀ s, fst (update_inventory (mkRequest "TShirts" (-3)) inventory)
            ≠ inl (InvalidItem s)).
Proof.
  split.
  - apply (invalid_item_rejected (mkRequest "shoes" 1) inventory);
      vm_compute; [reflexivity | discriminate].
  - apply (invalid_item_rejected (mkRequest "TShirts" (-3)) inventory);
      vm_compute; reflexivity.
Defined.

(** C4: when the item is stored and its count plus the delta is not negative,
    [update_inventory] returns the updated dictionary, in which that item's
    count is the old count plus the delta and every other entry is as before,
    and a following read returns that dictionary; hence, after any sequence of
    calls played from the initial dictionary, a read returns, for each item,
    its initial count plus the sum of the deltas of the accepted updates of
    that item. *)
Theorem update_adds_delta
    (request : InventoryUpdateRequest) (inv : gmap string Z) (current : Z) :
  inv !! lower (item request) = Some current →
  0 ≤ current + change request →
  (let inv' := snd (update_inventory request inv) in
   fst (update_inventory request inv) = inr inv'
   ∧ inv' !! lower (item request) = Some (current + change request)
   ∧ (∀ k, k ≠ lower (item request) → inv' !! k = inv !! k)
   ∧ fst (get_inventory inv') = inv')
  ∧ (∀ (cs : list call) (k : string),
       fst (get_inventory (run cs inventory)) !! k
       = (λ v0, v0 + accepted_sum k cs inventory) <$> inventory !! k).
Proof.
  intros Hk Hpos. split.
  - rewrite (update_inventory_ok _ _ _ Hk Hpos). simpl.
    split; [reflexivity|]. split; [apply lookup_insert_eq|].
    split; [|reflexivity]. intros k Hne. by apply lookup_insert_ne.
  - intros cs k. apply run_lookup.
Qed.

Lemma update_adds_delta_witness :
  (let inv' := snd (update_inventory (mkRequest "tshirts" (-3)) inventory) in
   fst (update_inventory (mkRequest "tshirts" (-3)) inventory) = inr inv'
   ∧ inv' !! "tshirts" = Some 17
   ∧ (∀ k, k ≠ "tshirts" → inv' !! k = inventory !! k)
   ∧ fst (get_inventory inv') = inv')
  ∧ (∀ (cs : list call) (k : string),
       fst (get_inventory (run cs inventory)) !! k
       = (λ v0, v0 + accepted_sum k cs inventory) <$> inventory !! k).
Proof.
  apply (update_adds_delta (mkRequest "tshirts" (-3)) inventory 20).
  - vm_compute; reflexivity.
  - simpl; lia.
Defined.

(** C5: whatever sequence of reads and updates is played from the initial
    dictionary, and at every point of it, the key set is the set of the two
    initial items; no single call changes the key set of any dictionary. *)
Theorem key_set_fixed (cs : list call) (n : nat) :
  dom (run (take n cs) inventory) = dom inventory
  ∧ dom inventory = {["tshirts"; "pants"]}
  ∧ ∀ (c : call) (inv : gmap string Z), dom (step c inv) = dom inv.
Proof.
  split; [apply run_dom|]. split; [apply inventory_dom | apply step_dom].
Qed.

(** C10: in any state reached from the initial dictionary, an update of a
    known item by a delta that is at least zero is accepted, and with a delta
    of zero the dictionary after the call is the dictionary before it. *)
Theorem restock_never_fails (cs : list call) (request : InventoryUpdateRequest) :
  lower (item request) ∈ known_items →
  0 ≤ change request →
  (∃ inv', update_inventory request (run cs inventory) = (inr inv', inv'))
  ∧ (change request = 0 →
     update_inventory request (run cs inventory)
     = (inr (run cs inventory), run cs inventory)).
Proof.
  intros Hk Hpos.
  rewrite <- inventory_dom, <- (run_dom cs) in Hk.
  apply elem_of_dom in Hk as [current Hk].
  pose proof (run_nonneg cs inventory inventory_nonneg _ _ Hk) as Hcur.
  rewrite (update_inventory_ok _ _ current Hk) by lia.
  split; [eauto|].
  intros ->. rewrite Z.add_0_r, (insert_id _ _ _ Hk). reflexivity.
Qed.

Lemma restock_never_fails_witness :
  (∃ inv', update_inventory (mkRequest "Pants" 0)
             (run [Update (mkRequest "pants" (-15))] inventory) = (inr inv', inv'))
  ∧ (0 = 0 →
     update_inventory (mkRequest "Pants" 0)
       (run [Update (mkRequest "pants" (-15))] inventory)
     = (inr (run [Update (mkRequest "pants" (-15))] inventory),
        run [Update (mkRequest "pants" (-15))] inventory)).
Proof.
  apply (restock_never_fails [Update (mkRequest "pants" (-15))] (mkRequest "Pants" 0)).
  - vm_compute; reflexivity.
  - simpl; lia.
Defined.

(** The scenarios of the specification, evaluated. *)
Example scenario_sell_three :
  update_inventory (mkRequest "tshirts" (-3)) inventory
  = (inr (<["tshirts" := 17]> inventory), <["tshirts" := 17]> inventory).
Proof. vm_compute. reflexivity. Qed.

Example scenario_oversell :
  update_inventory (mkRequest "pants" (-100)) (<["tshirts" := 17]> inventory)
  = (inl (mkHTTPException 400
            "Cannot reduce 'pants' stock below zero. Current: 15, Attempted change: -100"),
     <["tshirts" := 17]> inventory).
Proof. vm_compute. reflexivity. Qed.

Example scenario_shoes :
  update_inventory (mkRequest "shoes" 1) inventory
  = (inl (mkHTTPException 400
            "Invalid item: 'shoes'. Only 'tshirts' and 'pants' are supported."),
     inventory).
Proof. vm_compute. reflexivity. Qed.

(** * Properties of the MCP server *)

Import McpServer.

(** Unfolds the plumbing of [M] so that a run can be evaluated. *)
Ltac run_M :=
  unfold try_except, raise_for_status, json_of, as_dict, make_MCPResponse,
    client_get_inventory, client_post_inventory, emit, raise,
    mbind, M_bind, mret, M_ret; simpl.

Section ServerFacts.

Context (lib : Library) (env : Environment).

Implicit Types (w : World) (d : list (string * pyval)) (v : pyval).

Lemma py_eq_str_true v s : py_eq_str v s = true ↔ v = PyStr s.
Proof.
  destruct v; simpl; try (split; [discriminate | intros [=]]).
  rewrite String.eqb_eq. split; [by intros -> | by intros [= ->]].
Qed.

Lemma py_eq_str_false v s : v ≠ PyStr s → py_eq_str v s = false.
Proof.
  intros Hne. destruct (py_eq_str v s) eqn:E; [|reflexivity].
  by apply py_eq_str_true in E.
Qed.

(** A key whose lookup differs from the default is in the dictionary. *)
Lemma dict_get_has d key default v :
  dict_get d key default = v → v ≠ default → dict_has d key = true.
Proof.
  induction d as [|[k x] d IH]; simpl; [congruence|].
  destruct (String.eqb k key); [reflexivity | exact IH].
Qed.

(** A successful interpretation sends one request, to the Gemini endpoint,
    and leaves the inventory service alone. *)
Lemma call_gemini_llm_ok prompt w v w1 :
  call_gemini_llm lib env prompt w = (inr v, w1) →
  w1 = {| store := store w; trace := trace w ++ [GeminiPost prompt] |}.
Proof.
  unfold call_gemini_llm. destruct (GEMINI_API_KEY env); [discriminate|].
  run_M. destruct (gemini_post env prompt); simpl; try discriminate.
  destruct (json_loads lib _); simpl; [by intros [= _ <-] | discriminate].
Qed.

(** Whatever its outcome, [call_gemini_llm] never reaches the inventory
    service. *)
Lemma call_gemini_llm_world prompt w r w1 :
  call_gemini_llm lib env prompt w = (r, w1) →
  store w1 = store w
  ∧ (trace w1 = trace w ∨ trace w1 = (trace w ++ [GeminiPost prompt])%list).
Proof.
  unfold call_gemini_llm. destruct (GEMINI_API_KEY env).
  { intros [= _ <-]. auto. }
  run_M. destruct (gemini_post env prompt) as [| | | |text]; simpl;
    try (intros [= _ <-]; simpl; auto).
  destruct (json_loads lib text); simpl; intros [= _ <-]; simpl; auto.
Qed.

End ServerFacts.

(** The count the store holds under a name, read through the JSON body of
    [GET /inventory]: a name that is not a key reads as 0. *)
Lemma inventory_body_get (inv : gmap string Z) (t p : Z) (s : string) :
  dom inv = known_items →
  inv !! "tshirts" = Some t →
  inv !! "pants" = Some p →
  dict_get [("tshirts", PyInt t); ("pants", PyInt p)] s (PyInt 0)
  = PyInt (default 0 (inv !! s)).
Proof.
  intros Hdom Ht Hp. cbn [dict_get].
  destruct (String.eqb_spec "tshirts" s) as [<-|Hn1]; [by rewrite Ht|].
  destruct (String.eqb_spec "pants" s) as [<-|Hn2]; [by rewrite Hp|].
  assert (inv !! s = None) as ->; [|reflexivity].
  apply not_elem_of_dom. rewrite Hdom. unfold known_items.
  rewrite elem_of_union, !elem_of_singleton. intros [?|?]; congruence.
Qed.

(** * The claims about the MCP server *)

(** C9: with an empty [GEMINI_API_KEY], [call_gemini_llm] and
    [process_natural_language_query] raise an HTTP 500 whose detail says that
    the key is not configured, and the world after the call is the world
    before it: no request was sent, neither to the model nor to the inventory
    service. *)
Theorem missing_credential
    (lib : Library) (env : Environment) (nl_query : NaturalLanguageQuery) (w : World) :
  GEMINI_API_KEY env = EmptyString →
  ∃ e, call_gemini_llm lib env (llm_prompt_format (query nl_query)) w
       = (inl (HTTPExc e), w)
       ∧ process_natural_language_query lib env nl_query w = (inl (HTTPExc e), w)
       ∧ status_code e = 500
       ∧ detail e = "Gemini API key is not configured. Please set the GEMINI_API_KEY environment variable.".
Proof.
  intros Hkey. eexists. 
  unfold process_natural_language_query, call_gemini_llm. rewrite Hkey.
  repeat split.
Qed.

Lemma missing_credential_witness :
  ∃ e, call_gemini_llm (Sample.library PyNone) (Sample.environment EmptyString)
         (llm_prompt_format "Add 5 pants") Sample.world
       = (inl (HTTPExc e), Sample.world)
       ∧ process_natural_language_query (Sample.library PyNone)
           (Sample.environment EmptyString) (mkQuery "Add 5 pants") Sample.world
         = (inl (HTTPExc e), Sample.world)
       ∧ status_code e = 500
       ∧ detail e = "Gemini API key is not configured. Please set the GEMINI_API_KEY environment variable.".
Proof.
  apply (missing_credential (Sample.library PyNone) (Sample.environment EmptyString)
           (mkQuery "Add 5 pants") Sample.world).
  reflexivity.
Defined.

(** C6: when the interpreted intent has operation [POST] and its item or its
    change is missing or null, [process_natural_language_query] raises an
    HTTP 400 whose detail ends with the model's reasoning; the only request
    sent is the one to the model, and the dictionary of the inventory service
    is the one before the call. *)
Theorem incomplete_intent_rejected
    (lib : Library) (env : Environment) (nl_query : NaturalLanguageQuery)
    (w w1 : World) (d : list (string * pyval)) :
  call_gemini_llm lib env (llm_prompt_format (query nl_query)) w
  = (inr (PyDict d), w1) →
  dict_get d "operation" PyNone = PyStr "POST" →
  dict_get d "item" PyNone = PyNone ∨ dict_get d "change" PyNone = PyNone →
  ∃ e, process_natural_language_query lib env nl_query w = (inl (HTTPExc e), w1)
       ∧ status_code e = 400
       ∧ detail e
         = "LLM failed to extract required 'item' or 'change' for POST operation. LLM Reasoning: "
           ++ py_str lib (dict_get d "reasoning"
                            (PyStr "No specific reasoning provided by LLM."))
       ∧ store w1 = store w
       ∧ trace w1 = (trace w ++ [GeminiPost (llm_prompt_format (query nl_query))])%list.
Proof.
  intros Hcall Hop Hmissing. eexists.
  pose proof (call_gemini_llm_ok _ _ _ _ _ _ Hcall) as Hw1.
  unfold process_natural_language_query. run_M. rewrite Hcall. simpl.
  rewrite (dict_get_has _ _ _ _ Hop) by discriminate. simpl.
  rewrite Hop. simpl.
  assert (is_None (dict_get d "item" PyNone)
          || is_None (dict_get d "change" PyNone) = true) as ->.
  { destruct Hmissing as [-> | ->]; simpl; [reflexivity | apply orb_true_r]. }
  split; [reflexivity|]. rewrite Hw1. repeat split.
Qed.

Lemma incomplete_intent_rejected_witness :
  let d := [("operation", PyStr "POST"); ("item", PyNone); ("change", PyNone);
            ("reasoning", PyStr "No item was named.")] in
  let w1 := {| store := inventory;
               trace := [GeminiPost (llm_prompt_format "Add stock")] |} in
  ∃ e, process_natural_language_query (Sample.library (PyDict d))
         (Sample.environment "key") (mkQuery "Add stock") Sample.world
       = (inl (HTTPExc e), w1)
       ∧ status_code e = 400
       ∧ detail e
         = "LLM failed to extract required 'item' or 'change' for POST operation. LLM Reasoning: "
           ++ py_str (Sample.library (PyDict d))
                (dict_get d "reasoning" (PyStr "No specific reasoning provided by LLM."))
       ∧ store w1 = store Sample.world
       ∧ trace w1
         = (trace Sample.world ++ [GeminiPost (llm_prompt_format "Add stock")])%list.
Proof.
  intros d w1.
  apply (incomplete_intent_rejected (Sample.library (PyDict d))
           (Sample.environment "key") (mkQuery "Add stock") Sample.world w1 d).
  - vm_compute; reflexivity.
  - reflexivity.
  - left; reflexivity.
Defined.

(** C8: when the interpreted intent has an operation that is neither [GET]
    nor [POST], [process_natural_language_query] raises an HTTP 400 whose
    detail quotes the operation and ends with the model's reasoning; the only
    request sent is the one to the model, and the dictionary of the inventory
    service is the one before the call. *)
Theorem unsupported_operation_rejected
    (lib : Library) (env : Environment) (nl_query : NaturalLanguageQuery)
    (w w1 : World) (d : list (string * pyval)) :
  call_gemini_llm lib env (llm_prompt_format (query nl_query)) w
  = (inr (PyDict d), w1) →
  dict_has d "operation" = true →
  dict_get d "operation" PyNone ≠ PyStr "GET" →
  dict_get d "operation" PyNone ≠ PyStr "POST" →
  ∃ e, process_natural_language_query lib env nl_query w = (inl (HTTPExc e), w1)
       ∧ status_code e = 400
       ∧ detail e
         = "LLM returned an unsupported operation: '"
           ++ py_str lib (dict_get d "operation" PyNone)
           ++ "'. LLM Reasoning: "
           ++ py_str lib (dict_get d "reasoning"
                            (PyStr "No specific reasoning provided by LLM."))
       ∧ store w1 = store w
       ∧ trace w1 = (trace w ++ [GeminiPost (llm_prompt_format (query nl_query))])%list.
Proof.
  intros Hcall Hhas Hget Hpost. eexists.
  pose proof (call_gemini_llm_ok _ _ _ _ _ _ Hcall) as Hw1.
  unfold process_natural_language_query. run_M. rewrite Hcall. simpl.
  rewrite Hhas. simpl.
  rewrite (py_eq_str_false _ _ Hget), (py_eq_str_false _ _ Hpost).
  split; [reflexivity|]. rewrite Hw1. repeat split.
Qed.

Lemma unsupported_operation_rejected_witness :
  let d := [("operation", PyStr "DELETE");
            ("reasoning", PyStr "The user wants to drop an item.")] in
  let w1 := {| store := inventory;
               trace := [GeminiPost (llm_prompt_format "Remove pants")] |} in
  ∃ e, process_natural_language_query (Sample.library (PyDict d))
         (Sample.environment "key") (mkQuery "Remove pants") Sample.world
       = (inl (HTTPExc e), w1)
       ∧ status_code e = 400
       ∧ detail e
         = "LLM returned an unsupported operation: '"
           ++ py_str (Sample.library (PyDict d)) (dict_get d "operation" PyNone)
           ++ "'. LLM Reasoning: "
           ++ py_str (Sample.library (PyDict d))
                (dict_get d "reasoning" (PyStr "No specific reasoning provided by LLM."))
       ∧ store w1 = store Sample.world
       ∧ trace w1
         = (trace Sample.world ++ [GeminiPost (llm_prompt_format "Remove pants")])%list.
Proof.
  intros d w1.
  apply (unsupported_operation_rejected (Sample.library (PyDict d))
           (Sample.environment "key") (mkQuery "Remove pants") Sample.world w1 d).
  - vm_compute; reflexivity.
  - reflexivity.
  - discriminate.
  - discriminate.
Defined.

(** C7: when the interpreted intent has operation [GET] and an item that is
    truthy and can be a dictionary key, the inventory service can be reached
    and its key set is the two known items, [process_natural_language_query]
    returns a response whose [inventory_state] is the whole dictionary of the
    service and whose message gives, for that item, the count found in that
    dictionary, or 0 when the item is not one of its keys. *)
Theorem read_one_item
    (lib : Library) (env : Environment) (nl_query : NaturalLanguageQuery)
    (w w1 : World) (d : list (string * pyval)) :
  call_gemini_llm lib env (llm_prompt_format (query nl_query)) w
  = (inr (PyDict d), w1) →
  dict_get d "operation" PyNone = PyStr "GET" →
  py_truthy (dict_get d "item" PyNone) = true →
  hashable (dict_get d "item" PyNone) = true →
  inventory_link env = None →
  dom (store w) = known_items →
  let item := dict_get d "item" PyNone in
  let reasoning :=
    dict_get d "reasoning" (PyStr "No specific reasoning provided by LLM.") in
  let item_count :=
    match item with PyStr s => default 0 (store w !! s) | _ => 0 end in
  ∃ t p,
    store w !! "tshirts" = Some t ∧ store w !! "pants" = Some p
    ∧ process_natural_language_query lib env nl_query w
      = (inr {| message := "Successfully retrieved inventory for " ++ py_str lib item
                           ++ ": " ++ pretty item_count
                           ++ ". Reasoning: " ++ py_str lib reasoning;
                inventory_state := [("tshirts", PyInt t); ("pants", PyInt p)];
                error := None |},
         {| store := store w;
            trace := trace w ++ [GeminiPost (llm_prompt_format (query nl_query));
                                 InventoryGet] |}).
Proof.
  intros Hcall Hop Htruthy Hhash Hlink Hdom item reasoning item_count.
  pose proof (call_gemini_llm_ok _ _ _ _ _ _ Hcall) as Hw1.
  assert (is_Some (store w !! "tshirts")) as [t Ht].
  { apply elem_of_dom. rewrite Hdom. unfold known_items.
    rewrite elem_of_union, !elem_of_singleton. by left. }
  assert (is_Some (store w !! "pants")) as [p Hp].
  { apply elem_of_dom. rewrite Hdom. unfold known_items.
    rewrite elem_of_union, !elem_of_singleton. by right. }
  exists t, p. split; [exact Ht|]. split; [exact Hp|].
  unfold process_natural_language_query. run_M. rewrite Hcall. simpl.
  rewrite (dict_get_has _ _ _ _ Hop) by discriminate. simpl.
  rewrite Hop, Hlink. simpl. rewrite Hw1. simpl.
  unfold inventory_response. rewrite Ht, Hp.
  remember [("tshirts", PyInt t); ("pants", PyInt p)] as body eqn:Hbody.
  simpl. rewrite Htruthy. rewrite <- app_assoc. simpl.
  subst item_count reasoning item.
  destruct (dict_get d "item" PyNone) as [|b|n|r|s|l|l] eqn:Eitem;
    try discriminate; simpl; subst body; try reflexivity.
  rewrite (inventory_body_get (store w) t p s Hdom Ht Hp). reflexivity.
Qed.


Lemma read_one_item_witness :
  let d := [("operation", PyStr "GET"); ("item", PyStr "tshirts"); ("change", PyNone);
            ("reasoning", PyStr "The user asks for one item.")] in
  ∃ t p,
    store Sample.world !! "tshirts" = Some t ∧ store Sample.world !! "pants" = Some p
    ∧ process_natural_language_query (Sample.library (PyDict d))
        (Sample.environment "key") (mkQuery "How many tshirts?") Sample.world
      = (inr {| message := "Successfully retrieved inventory for tshirts: 20. Reasoning: The user asks for one item.";
                inventory_state := [("tshirts", PyInt t); ("pants", PyInt p)];
                error := None |},
         {| store := store Sample.world;
            trace := [GeminiPost (llm_prompt_format "How many tshirts?");
                      InventoryGet] |}).
Proof.
  intros d.
  apply (read_one_item (Sample.library (PyDict d)) (Sample.environment "key")
           (mkQuery "How many tshirts?") Sample.world
           {| store := inventory;
              trace := [GeminiPost (llm_prompt_format "How many tshirts?")] |} d).
  - vm_compute; reflexivity.
  - reflexivity.
  - reflexivity.
  - reflexivity.
  - reflexivity.
  - vm_compute; reflexivity.
Defined.

(** The read of a name the service does not hold: the count in the message
    is 0 and the call succeeds. *)
Example scenario_read_unknown_item :
  fst (process_natural_language_query
         (Sample.library (PyDict [("operation", PyStr "GET"); ("item", PyStr "shoes")]))
         (Sample.environment "key") (mkQuery "How many shoes?") Sample.world)
  = inr {| message := "Successfully retrieved inventory for shoes: 0. Reasoning: No specific reasoning provided by LLM.";
           inventory_state := [("tshirts", PyInt 20); ("pants", PyInt 15)];
           error := None |}.
Proof. vm_compute. reflexivity. Qed.

(** The incomplete write of the specification: a 400, and the inventory
    service is never called. *)
Example scenario_incomplete_post :
  process_natural_language_query
    (Sample.library
       (PyDict [("operation", PyStr "POST"); ("item", PyNone); ("change", PyNone)]))
    (Sample.environment "key") (mkQuery "Add stock") Sample.world
  = (inl (HTTPExc
            {| status_code := 400;
               detail := "LLM failed to extract required 'item' or 'change' for POST operation. LLM Reasoning: No specific reasoning provided by LLM." |}),
     {| store := inventory; trace := [GeminiPost (llm_prompt_format "Add stock")] |}).
Proof. vm_compute. reflexivity. Qed.

(** A complete write reaches the service and changes its dictionary. *)
Example scenario_post_forwarded :
  process_natural_language_query
    (Sample.library
       (PyDict [("operation", PyStr "POST"); ("item", PyStr "tshirts");
                ("change", PyInt (-3)); ("reasoning", PyStr "Sold.")]))
    (Sample.environment "key") (mkQuery "I sold 3 t shirts") Sample.world
  = (inr {| message := "Successfully updated inventory for tshirts by -3. Reasoning: Sold.";
            inventory_state := [("tshirts", PyInt 17); ("pants", PyInt 15)];
            error := None |},
     {| store := <["tshirts" := 17]> inventory;
        trace := [GeminiPost (llm_prompt_format "I sold 3 t shirts");
                  InventoryPost (PyStr "tshirts") (PyInt (-3))] |}).
Proof. vm_compute. reflexivity. Qed.

(** A write the service refuses comes back with the status and the detail
    of the service, and its dictionary is unchanged. *)
Example scenario_post_refused :
  process_natural_language_query
    (Sample.library
       (PyDict [("operation", PyStr "POST"); ("item", PyStr "pants");
                ("change", PyInt (-100)); ("reasoning", PyStr "Sold.")]))
    (Sample.environment "key") (mkQuery "I sold 100 pants") Sample.world
  = (inl (HTTPExc
            {| status_code := 400;
               detail := "Inventory Service returned an error: Cannot reduce 'pants' stock below zero. Current: 15, Attempted change: -100 (HTTP 400)" |}),
     {| store := inventory;
        trace := [GeminiPost (llm_prompt_format "I sold 100 pants");
                  InventoryPost (PyStr "pants") (PyInt (-100))] |}).
Proof. vm_compute. reflexivity. Qed.

(** * Further properties of the inventory service *)

(** X1: an update that raises leaves the dictionary as it was; the exception
    is one of the two errors of the handler and its status is 400. *)
Theorem update_failure_leaves_state
    (request : InventoryUpdateRequest) (inv : gmap string Z) (e : HTTPException) :
  fst (update_inventory request inv) = inl e →
  snd (update_inventory request inv) = inv
  ∧ status_code e = 400
  ∧ (e = InvalidItem (item request) ∧ inv !! lower (item request) = None
     ∨ ∃ current, inv !! lower (item request) = Some current
                  ∧ current + change request < 0
                  ∧ e = NegativeStockRejected (lower (item request)) current
                          (change request)).
Proof.
  destruct (update_inventory_cases request inv)
    as [[Hn ->] | [(c & Hk & Hneg & ->) | (c & _ & _ & ->)]]; simpl.
  - intros [= <-]. repeat split. by left.
  - intros [= <-]. repeat split. right. by exists c.
  - discriminate.
Qed.

Lemma update_failure_leaves_state_witness :
  snd (update_inventory (mkRequest "pants" (-16)) inventory) = inventory
  ∧ status_code (NegativeStockRejected "pants" 15 (-16)) = 400
  ∧ (NegativeStockRejected "pants" 15 (-16) = InvalidItem "pants"
     ∧ inventory !! lower "pants" = None
     ∨ ∃ current, inventory !! lower "pants" = Some current
                  ∧ current + -16 < 0
                  ∧ NegativeStockRejected "pants" 15 (-16)
                    = NegativeStockRejected (lower "pants") current (-16)).
Proof.
  apply (update_failure_leaves_state (mkRequest "pants" (-16)) inventory
           (NegativeStockRejected "pants" 15 (-16))).
  vm_compute; reflexivity.
Defined.

(** X2: an update is accepted exactly when the lowercased item is a key of
    the dictionary and its count plus the change is not negative; the
    mapping returned is then the dictionary stored after the call. *)
Theorem update_accepted_iff
    (request : InventoryUpdateRequest) (inv : gmap string Z) :
  (accepted request inv = true
   ↔ ∃ current, inv !! lower (item request) = Some current
                ∧ 0 ≤ current + change request)
  ∧ ∀ m, fst (update_inventory request inv) = inr m
         → snd (update_inventory request inv) = m.
Proof.
  unfold accepted.
  destruct (update_inventory_cases request inv)
    as [[Hn ->] | [(c & Hk & Hneg & ->) | (c & Hk & Hpos & ->)]]; simpl.
  - split; [|discriminate]. split; [discriminate|].
    intros (c & Hc & _). congruence.
  - split; [|discriminate]. split; [discriminate|].
    intros (c' & Hc & Hpos). assert (c' = c) by congruence. lia.
  - split; [|by intros m [= <-]]. split; [|reflexivity]. intros _. eauto.
Qed.

(** X3: two accepted updates of the same item, one after the other, leave
    the dictionary that the single update by the sum of the two changes
    leaves, and that single update is accepted. *)
Theorem updates_add_up
    (r1 r2 : InventoryUpdateRequest) (inv inv1 inv2 : gmap string Z) :
  lower (item r1) = lower (item r2) →
  update_inventory r1 inv = (inr inv1, inv1) →
  update_inventory r2 inv1 = (inr inv2, inv2) →
  update_inventory (mkRequest (item r1) (change r1 + change r2)) inv
  = (inr inv2, inv2).
Proof.
  intros Hsame H1 H2.
  destruct (update_inventory_cases r1 inv)
    as [[_ E] | [(c & _ & _ & E) | (c & Hk & Hpos & E)]];
    rewrite E in H1; try discriminate. injection H1 as <-.
  destruct (update_inventory_cases r2 (<[lower (item r1) := c + change r1]> inv))
    as [[_ E2] | [(c2 & _ & _ & E2) | (c2 & Hk2 & Hpos2 & E2)]];
    rewrite E2 in H2; try discriminate. injection H2 as <-.
  rewrite <- Hsame in *. rewrite lookup_insert_eq in Hk2. injection Hk2 as <-.
  rewrite insert_insert_eq.
  rewrite (update_inventory_ok (mkRequest (item r1) (change r1 + change r2)) inv c Hk)
    by (simpl; lia).
  simpl. by rewrite Z.add_assoc.
Qed.

Lemma updates_add_up_witness :
  update_inventory (mkRequest "tshirts" (-3 + 5)) inventory
  = (inr (<["tshirts" := 22]> inventory), <["tshirts" := 22]> inventory).
Proof.
  apply (updates_add_up (mkRequest "tshirts" (-3)) (mkRequest "TSHIRTS" 5)
           inventory (<["tshirts" := 17]> inventory)
           (<["tshirts" := 22]> inventory)); vm_compute; reflexivity.
Defined.

(** X4: updates of two different items commute: played in either order from
    the same dictionary, they leave the same dictionary, whether each is
    accepted or refused. *)
Theorem updates_of_different_items_commute
    (r1 r2 : InventoryUpdateRequest) (inv : gmap string Z) :
  lower (item r1) ≠ lower (item r2) →
  run [Update r1; Update r2] inv = run [Update r2; Update r1] inv.
Proof.
  intros Hne. simpl.
  destruct (update_inventory_cases r1 inv)
    as [[H1 E1] | [(c1 & H1 & Hn1 & E1) | (c1 & H1 & Hp1 & E1)]];
  destruct (update_inventory_cases r2 inv)
    as [[H2 E2] | [(c2 & H2 & Hn2 & E2) | (c2 & H2 & Hp2 & E2)]];
  rewrite E1, E2; simpl; rewrite ?E1, ?E2; simpl; try reflexivity.
  - rewrite update_inventory_unknown; [reflexivity|].
    by rewrite lookup_insert_ne.
  - rewrite (update_inventory_negative r1 _ c1); [reflexivity| |lia].
    by rewrite lookup_insert_ne.
  - rewrite update_inventory_unknown; [reflexivity|].
    by rewrite lookup_insert_ne.
  - rewrite (update_inventory_negative r2 _ c2); [reflexivity| |lia].
    by rewrite lookup_insert_ne.
  - rewrite (update_inventory_ok r2 _ c2), (update_inventory_ok r1 _ c1);
      try lia; try (by rewrite lookup_insert_ne).
    simpl. by apply insert_insert_ne.
Qed.

Lemma updates_of_different_items_commute_witness :
  run [Update (mkRequest "tshirts" (-3)); Update (mkRequest "Pants" (-100))] inventory
  = run [Update (mkRequest "Pants" (-100)); Update (mkRequest "tshirts" (-3))] inventory.
Proof.
  apply (updates_of_different_items_commute
           (mkRequest "tshirts" (-3)) (mkRequest "Pants" (-100)) inventory).
  vm_compute; discriminate.
Defined.

(** X5: in a state reached from the initial dictionary, an accepted update
    can always be undone: the update of the same item by the opposite change
    is accepted and gives back the dictionary from before. *)
Theorem accepted_update_can_be_undone
    (cs : list call) (request : InventoryUpdateRequest) (inv' : gmap string Z) :
  update_inventory request (run cs inventory) = (inr inv', inv') →
  update_inventory (mkRequest (item request) (- change request)) inv'
  = (inr (run cs inventory), run cs inventory).
Proof.
  intros H.
  destruct (update_inventory_cases request (run cs inventory))
    as [[_ E] | [(c & _ & _ & E) | (c & Hk & Hpos & E)]];
    rewrite E in H; try discriminate. injection H as <-.
  pose proof (run_nonneg cs inventory inventory_nonneg _ _ Hk) as Hc.
  rewrite (update_inventory_ok _ _ (c + change request));
    [|by rewrite lookup_insert_eq | simpl; lia].
  simpl. rewrite insert_insert_eq.
  replace (c + change request + - change request) with c by lia.
  by rewrite (insert_id _ _ _ Hk).
Qed.

Lemma accepted_update_can_be_undone_witness :
  update_inventory (mkRequest "pants" (- -15)) (<["pants" := 0]> inventory)
  = (inr (run [Read] inventory), run [Read] inventory).
Proof.
  apply (accepted_update_can_be_undone [Read] (mkRequest "pants" (-15))
           (<["pants" := 0]> inventory)).
  vm_compute; reflexivity.
Defined.

(** * Further properties of the MCP server *)

(** Whatever [call_gemini_llm] raises is an [HTTPException]. *)
Lemma call_gemini_llm_raises
    (lib : Library) (env : Environment) (prompt : string) (w w1 : World) (x : exn) :
  call_gemini_llm lib env prompt w = (inl x, w1) → ∃ e, x = HTTPExc e.
Proof.
  unfold call_gemini_llm. destruct (GEMINI_API_KEY env).
  { intros [= <- _]. eauto. }
  run_M. destruct (gemini_post env prompt) as [| | | |text]; simpl;
    try (intros [= <- _]; eauto).
  destruct (json_loads lib text); simpl; [discriminate|].
  intros [= <- _]. eauto.
Qed.

(** X6: every failure of [call_gemini_llm] reaches the caller as an
    [HTTPException]; its status is 500 or 503, or else the status of the
    response on which [raise_for_status] raised. *)
Theorem gemini_failures_are_http
    (lib : Library) (env : Environment) (prompt : string) (w w1 : World) (x : exn) :
  call_gemini_llm lib env prompt w = (inl x, w1) →
  ∃ e, x = HTTPExc e
       ∧ (status_code e = 500 ∨ status_code e = 503
          ∨ ∃ response, gemini_post env prompt = StatusFailed response
                        ∧ status_code e = response_status response).
Proof.
  unfold call_gemini_llm. destruct (GEMINI_API_KEY env).
  { intros [= <- _]. eexists. split; [reflexivity|]. by left. }
  run_M. destruct (gemini_post env prompt) as [| r | | |text]; simpl.
  - intros [= <- _]. eexists. split; [reflexivity|]. right. by left.
  - intros [= <- _]. eexists. split; [reflexivity|]. right. right. by exists r.
  - intros [= <- _]. eexists. split; [reflexivity|]. by left.
  - intros [= <- _]. eexists. split; [reflexivity|]. by left.
  - destruct (json_loads lib text); simpl; [discriminate|].
    intros [= <- _]. eexists. split; [reflexivity|]. by left.
Qed.

Lemma gemini_failures_are_http_witness :
  ∃ e, HTTPExc {| status_code := 500;
                  detail := "Gemini API key is not configured. Please set the GEMINI_API_KEY environment variable." |}
       = HTTPExc e
       ∧ (status_code e = 500 ∨ status_code e = 503
          ∨ ∃ response,
              gemini_post (Sample.environment EmptyString) "prompt"
              = StatusFailed response
              ∧ status_code e = response_status response).
Proof.
  apply (gemini_failures_are_http (Sample.library PyNone)
           (Sample.environment EmptyString) "prompt" Sample.world Sample.world).
  reflexivity.
Defined.

(** X7: [call_gemini_llm] never touches the dictionary of the inventory
    service; it sends no request when the key is empty and exactly one, the
    post of the prompt to the model, otherwise, whatever the outcome. *)
Theorem gemini_single_request
    (lib : Library) (env : Environment) (prompt : string)
    (w w1 : World) (r : exn + pyval) :
  call_gemini_llm lib env prompt w = (r, w1) →
  store w1 = store w
  ∧ (GEMINI_API_KEY env = EmptyString ∧ trace w1 = trace w
     ∨ GEMINI_API_KEY env ≠ EmptyString
       ∧ trace w1 = (trace w ++ [GeminiPost prompt])%list).
Proof.
  unfold call_gemini_llm. destruct (GEMINI_API_KEY env) eqn:Hkey.
  { intros [= _ <-]. split; [reflexivity|]. by left. }
  run_M. destruct (gemini_post env prompt) as [| | | |text]; simpl;
    try (intros [= _ <-]; simpl; split; [reflexivity|]; by right).
  destruct (json_loads lib text); simpl; intros [= _ <-]; simpl;
    (split; [reflexivity|]; by right).
Qed.

Lemma gemini_single_request_witness :
  store {| store := inventory; trace := [GeminiPost "prompt"] |} = store Sample.world
  ∧ (GEMINI_API_KEY (Sample.environment "key") = EmptyString
     ∧ trace {| store := inventory; trace := [GeminiPost "prompt"] |}
       = trace Sample.world
     ∨ GEMINI_API_KEY (Sample.environment "key") ≠ EmptyString
       ∧ trace {| store := inventory; trace := [GeminiPost "prompt"] |}
         = (trace Sample.world ++ [GeminiPost "prompt"])%list).
Proof.
  apply (gemini_single_request (Sample.library PyNone) (Sample.environment "key")
           "prompt" Sample.world _ (inr PyNone)).
  reflexivity.
Defined.

(** X8: when the post to the model cannot be completed, the caller gets an
    HTTP 503 whose detail carries the text of the transport error. *)
Theorem gemini_unreachable
    (lib : Library) (env : Environment) (prompt exc : string) (w : World) :
  GEMINI_API_KEY env ≠ EmptyString →
  gemini_post env prompt = PostFailed exc →
  call_gemini_llm lib env prompt w
  = (inl (HTTPExc {| status_code := 503;
                     detail := "Failed to connect to Gemini API: " ++ exc |}),
     {| store := store w; trace := trace w ++ [GeminiPost prompt] |}).
Proof.
  intros Hkey Hpost. unfold call_gemini_llm.
  destruct (GEMINI_API_KEY env); [congruence|].
  run_M. by rewrite Hpost.
Qed.

Lemma gemini_unreachable_witness :
  call_gemini_llm (Sample.library PyNone)
    {| GEMINI_API_KEY := "key"; gemini_post := λ _, PostFailed "timed out";
       inventory_link := None |} "prompt" Sample.world
  = (inl (HTTPExc {| status_code := 503;
                     detail := "Failed to connect to Gemini API: " ++ "timed out" |}),
     {| store := store Sample.world;
        trace := trace Sample.world ++ [GeminiPost "prompt"] |}).
Proof.
  apply (gemini_unreachable (Sample.library PyNone)
           {| GEMINI_API_KEY := "key"; gemini_post := λ _, PostFailed "timed out";
              inventory_link := None |} "prompt" "timed out" Sample.world).
  - discriminate.
  - reflexivity.
Defined.

(** X9: when the model answers with an error status, the caller gets an
    [HTTPException] with that same status, whose detail carries the text of
    the answer. *)
Theorem gemini_status_passed_on
    (lib : Library) (env : Environment) (prompt : string) (response : Response)
    (w : World) :
  GEMINI_API_KEY env ≠ EmptyString →
  gemini_post env prompt = StatusFailed response →
  call_gemini_llm lib env prompt w
  = (inl (HTTPExc {| status_code := response_status response;
                     detail := "Gemini API returned an error: "
                               ++ response_text response |}),
     {| store := store w; trace := trace w ++ [GeminiPost prompt] |}).
Proof.
  intros Hkey Hpost. unfold call_gemini_llm.
  destruct (GEMINI_API_KEY env); [congruence|].
  run_M. by rewrite Hpost.
Qed.

Lemma gemini_status_passed_on_witness :
  call_gemini_llm (Sample.library PyNone)
    {| GEMINI_API_KEY := "key";
       gemini_post := λ _, StatusFailed (mkResponse 429 "quota exceeded" (inl "no JSON"));
       inventory_link := None |} "prompt" Sample.world
  = (inl (HTTPExc {| status_code := 429;
                     detail := "Gemini API returned an error: " ++ "quota exceeded" |}),
     {| store := store Sample.world;
        trace := trace Sample.world ++ [GeminiPost "prompt"] |}).
Proof.
  apply (gemini_status_passed_on (Sample.library PyNone)
           {| GEMINI_API_KEY := "key";
              gemini_post :=
                λ _, StatusFailed (mkResponse 429 "quota exceeded" (inl "no JSON"));
              inventory_link := None |} "prompt"
           (mkResponse 429 "quota exceeded" (inl "no JSON")) Sample.world).
  - discriminate.
  - reflexivity.
Defined.

(** X10: when the text of the model is not JSON, the caller gets an HTTP 500
    whose detail carries that text; the exception raised inside the [try] is
    re-raised as it is, not wrapped as an unexpected error. *)
Theorem gemini_malformed_json
    (lib : Library) (env : Environment) (prompt text : string) (w : World) :
  GEMINI_API_KEY env ≠ EmptyString →
  gemini_post env prompt = ContentText text →
  json_loads lib text = None →
  call_gemini_llm lib env prompt w
  = (inl (HTTPExc {| status_code := 500;
                     detail := "Failed to parse JSON response from LLM. LLM returned malformed JSON. Raw text: "
                               ++ text |}),
     {| store := store w; trace := trace w ++ [GeminiPost prompt] |}).
Proof.
  intros Hkey Hpost Hloads. unfold call_gemini_llm.
  destruct (GEMINI_API_KEY env); [congruence|].
  run_M. rewrite Hpost. simpl. by rewrite Hloads.
Qed.

Lemma gemini_malformed_json_witness :
  let lib := {| repr_str := λ s, s; json_loads := λ _, None; json_dumps := λ _, "{}";
                validate_update := λ _ _, inl PyNone;
                unhashable_message := λ _, "unhashable";
                validation_message := λ _, "invalid" |} in
  call_gemini_llm lib (Sample.environment "key") "prompt" Sample.world
  = (inl (HTTPExc {| status_code := 500;
                     detail := "Failed to parse JSON response from LLM. LLM returned malformed JSON. Raw text: "
                               ++ Sample.sample_text |}),
     {| store := store Sample.world;
        trace := trace Sample.world ++ [GeminiPost "prompt"] |}).
Proof.
  intros lib.
  apply (gemini_malformed_json lib (Sample.environment "key") "prompt"
           Sample.sample_text Sample.world).
  - discriminate.
  - reflexivity.
  - reflexivity.
Defined.

(** X11: when the answer of the model has no candidate text, the
    [ValueError] raised inside the [try] is caught by the last handler and
    the caller gets an HTTP 500 that names the exception type and carries
    the raw answer. *)
Theorem gemini_no_content
    (lib : Library) (env : Environment) (prompt raw : string) (w : World) :
  GEMINI_API_KEY env ≠ EmptyString →
  gemini_post env prompt = NoContent raw →
  call_gemini_llm lib env prompt w
  = (inl (HTTPExc {| status_code := 500;
                     detail := "An unexpected error occurred during LLM call: ValueError: LLM response did not contain expected content structure. Raw result: "
                               ++ raw |}),
     {| store := store w; trace := trace w ++ [GeminiPost prompt] |}).
Proof.
  intros Hkey Hpost. unfold call_gemini_llm.
  destruct (GEMINI_API_KEY env); [congruence|].
  run_M. by rewrite Hpost.
Qed.

Lemma gemini_no_content_witness :
  call_gemini_llm (Sample.library PyNone)
    {| GEMINI_API_KEY := "key"; gemini_post := λ _, NoContent "{}";
       inventory_link := None |} "prompt" Sample.world
  = (inl (HTTPExc {| status_code := 500;
                     detail := "An unexpected error occurred during LLM call: ValueError: LLM response did not contain expected content structure. Raw result: "
                               ++ "{}" |}),
     {| store := store Sample.world;
        trace := trace Sample.world ++ [GeminiPost "prompt"] |}).
Proof.
  apply (gemini_no_content (Sample.library PyNone)
           {| GEMINI_API_KEY := "key"; gemini_post := λ _, NoContent "{}";
              inventory_link := None |} "prompt" "{}" Sample.world).
  - discriminate.
  - reflexivity.
Defined.

(** X12: a failure of the interpretation goes through
    [process_natural_language_query] unchanged: the same exception reaches
    the caller, and nothing is sent after the interpretation. *)
Theorem interpreter_failure_propagates
    (lib : Library) (env : Environment) (nl_query : NaturalLanguageQuery)
    (w w1 : World) (x : exn) :
  call_gemini_llm lib env (llm_prompt_format (query nl_query)) w = (inl x, w1) →
  process_natural_language_query lib env nl_query w = (inl x, w1).
Proof.
  intros Hcall.
  destruct (call_gemini_llm_raises _ _ _ _ _ _ Hcall) as [e ->].
  unfold process_natural_language_query. run_M. by rewrite Hcall.
Qed.

Lemma interpreter_failure_propagates_witness :
  process_natural_language_query (Sample.library PyNone)
    (Sample.environment EmptyString) (mkQuery "Check inventory") Sample.world
  = (inl (HTTPExc {| status_code := 500;
                     detail := "Gemini API key is not configured. Please set the GEMINI_API_KEY environment variable." |}),
     Sample.world).
Proof.
  apply (interpreter_failure_propagates (Sample.library PyNone)
           (Sample.environment EmptyString) (mkQuery "Check inventory")
           Sample.world Sample.world).
  reflexivity.
Defined.

(** X13: when the parsed answer of the model is not a dictionary, or is a
    dictionary without the key [operation], the caller gets an HTTP 500 that
    names [ValueError] and shows the answer; the inventory service is not
    called. *)
Theorem intent_without_operation
    (lib : Library) (env : Environment) (nl_query : NaturalLanguageQuery)
    (w w1 : World) (v : pyval) :
  call_gemini_llm lib env (llm_prompt_format (query nl_query)) w = (inr v, w1) →
  (∀ d, v = PyDict d → dict_has d "operation" = false) →
  process_natural_language_query lib env nl_query w
  = (inl (HTTPExc
            {| status_code := 500;
               detail := "An unexpected error occurred: ValueError: LLM response is not a valid dictionary or missing 'operation' key. Received: "
                         ++ py_str lib v |}),
     w1).
Proof.
  intros Hcall Hno.
  unfold process_natural_language_query. run_M. rewrite Hcall. simpl.
  destruct v as [| | | | | |d]; try reflexivity.
  by rewrite (Hno d eq_refl).
Qed.

Lemma intent_without_operation_witness :
  process_natural_language_query (Sample.library (PyList [PyInt 1]))
    (Sample.environment "key") (mkQuery "Check inventory") Sample.world
  = (inl (HTTPExc
            {| status_code := 500;
               detail := "An unexpected error occurred: ValueError: LLM response is not a valid dictionary or missing 'operation' key. Received: "
                         ++ py_str (Sample.library (PyList [PyInt 1])) (PyList [PyInt 1]) |}),
     {| store := inventory;
        trace := [GeminiPost (llm_prompt_format "Check inventory")] |}).
Proof.
  apply (intent_without_operation (Sample.library (PyList [PyInt 1]))
           (Sample.environment "key") (mkQuery "Check inventory") Sample.world
           {| store := inventory;
              trace := [GeminiPost (llm_prompt_format "Check inventory")] |}
           (PyList [PyInt 1])).
  - vm_compute; reflexivity.
  - discriminate.
Defined.

(** X14: a [GET] intent whose item is missing, null or otherwise falsy is
    answered with the whole dictionary of the service and the general
    message; the dictionary of the service is not changed. *)
Theorem read_all_items
    (lib : Library) (env : Environment) (nl_query : NaturalLanguageQuery)
    (w w1 : World) (d : list (string * pyval)) :
  call_gemini_llm lib env (llm_prompt_format (query nl_query)) w
  = (inr (PyDict d), w1) →
  dict_get d "operation" PyNone = PyStr "GET" →
  py_truthy (dict_get d "item" PyNone) = false →
  inventory_link env = None →
  dom (store w) = known_items →
  ∃ t p,
    store w !! "tshirts" = Some t ∧ store w !! "pants" = Some p
    ∧ process_natural_language_query lib env nl_query w
      = (inr {| message := "Successfully retrieved inventory. Reasoning: "
                           ++ py_str lib
                                (dict_get d "reasoning"
                                   (PyStr "No specific reasoning provided by LLM."));
                inventory_state := [("tshirts", PyInt t); ("pants", PyInt p)];
                error := None |},
         {| store := store w;
            trace := trace w ++ [GeminiPost (llm_prompt_format (query nl_query));
                                 InventoryGet] |}).
Proof.
  intros Hcall Hop Hfalsy Hlink Hdom.
  pose proof (call_gemini_llm_ok _ _ _ _ _ _ Hcall) as Hw1.
  assert (is_Some (store w !! "tshirts")) as [t Ht].
  { apply elem_of_dom. rewrite Hdom. unfold known_items.
    rewrite elem_of_union, !elem_of_singleton. by left. }
  assert (is_Some (store w !! "pants")) as [p Hp].
  { apply elem_of_dom. rewrite Hdom. unfold known_items.
    rewrite elem_of_union, !elem_of_singleton. by right. }
  exists t, p. split; [exact Ht|]. split; [exact Hp|].
  unfold process_natural_language_query. run_M. rewrite Hcall. simpl.
  rewrite (dict_get_has _ _ _ _ Hop) by discriminate. simpl.
  rewrite Hop, Hlink. simpl. rewrite Hw1. simpl.
  unfold inventory_response. rewrite Ht, Hp.
  remember [("tshirts", PyInt t); ("pants", PyInt p)] as body eqn:Hbody.
  simpl. rewrite Hfalsy. rewrite <- app_assoc. reflexivity.
Qed.

Lemma read_all_items_witness :
  let d := [("operation", PyStr "GET"); ("item", PyNone); ("change", PyNone);
            ("reasoning", PyStr "General status.")] in
  ∃ t p,
    store Sample.world !! "tshirts" = Some t ∧ store Sample.world !! "pants" = Some p
    ∧ process_natural_language_query (Sample.library (PyDict d))
        (Sample.environment "key") (mkQuery "Check inventory") Sample.world
      = (inr {| message := "Successfully retrieved inventory. Reasoning: General status.";
                inventory_state := [("tshirts", PyInt t); ("pants", PyInt p)];
                error := None |},
         {| store := store Sample.world;
            trace := [GeminiPost (llm_prompt_format "Check inventory");
                      InventoryGet] |}).
Proof.
  intros d.
  apply (read_all_items (Sample.library (PyDict d)) (Sample.environment "key")
           (mkQuery "Check inventory") Sample.world
           {| store := inventory;
              trace := [GeminiPost (llm_prompt_format "Check inventory")] |} d).
  - vm_compute; reflexivity.
  - reflexivity.
  - reflexivity.
  - reflexivity.
  - vm_compute; reflexivity.
Defined.

(** X15: when the inventory service cannot be reached, a [GET] intent, and a
    [POST] intent with item and change, end in an HTTP 503 whose detail
    names the address of the service and carries the text of the transport
    error; the dictionary of the service is not changed. *)
Theorem inventory_unreachable
    (lib : Library) (env : Environment) (nl_query : NaturalLanguageQuery)
    (w w1 : World) (d : list (string * pyval)) (exc : string) :
  call_gemini_llm lib env (llm_prompt_format (query nl_query)) w
  = (inr (PyDict d), w1) →
  dict_get d "operation" PyNone = PyStr "GET"
  ∨ (dict_get d "operation" PyNone = PyStr "POST"
     ∧ dict_get d "item" PyNone ≠ PyNone
     ∧ dict_get d "change" PyNone ≠ PyNone) →
  inventory_link env = Some exc →
  ∃ w2,
    process_natural_language_query lib env nl_query w
    = (inl (HTTPExc
              {| status_code := 503;
                 detail := "Failed to connect to Inventory Service at http://localhost:8000: "
                           ++ exc |}),
       w2)
    ∧ store w2 = store w.
Proof.
  intros Hcall Hop Hlink.
  pose proof (call_gemini_llm_ok _ _ _ _ _ _ Hcall) as Hw1.
  unfold process_natural_language_query. run_M. rewrite Hcall. simpl.
  destruct Hop as [Hop | (Hop & Hitem & Hchange)];
    rewrite (dict_get_has _ _ _ _ Hop) by discriminate; simpl;
    rewrite Hop, Hlink; simpl.
  - eexists. split; [reflexivity|]. by rewrite Hw1.
  - destruct (dict_get d "item" PyNone); try congruence;
      destruct (dict_get d "change" PyNone); try congruence; simpl;
      (eexists; split; [reflexivity|]; by rewrite Hw1).
Qed.

Lemma inventory_unreachable_witness :
  let d := [("operation", PyStr "GET")] in
  let env := {| GEMINI_API_KEY := "key";
                gemini_post := λ _, ContentText Sample.sample_text;
                inventory_link := Some "connection refused" |} in
  ∃ w2,
    process_natural_language_query (Sample.library (PyDict d)) env
      (mkQuery "Check inventory") Sample.world
    = (inl (HTTPExc
              {| status_code := 503;
                 detail := "Failed to connect to Inventory Service at http://localhost:8000: "
                           ++ "connection refused" |}),
       w2)
    ∧ store w2 = store Sample.world.
Proof.
  intros d env.
  apply (inventory_unreachable (Sample.library (PyDict d)) env
           (mkQuery "Check inventory") Sample.world
           {| store := inventory;
              trace := [GeminiPost (llm_prompt_format "Check inventory")] |} d
           "connection refused").
  - vm_compute; reflexivity.
  - left; reflexivity.
  - reflexivity.
Defined.

(** X16: a [POST] intent with item and change, whose body passes validation
    and whose update the service accepts, is answered with the updated
    dictionary and a message giving the item, the change and the reasoning;
    the dictionary of the service after the call is the one
    [update_inventory] leaves. *)
Theorem write_forwarded
    (lib : Library) (env : Environment) (nl_query : NaturalLanguageQuery)
    (w w1 : World) (d : list (string * pyval))
    (request : InventoryUpdateRequest) (inv' : gmap string Z) :
  call_gemini_llm lib env (llm_prompt_format (query nl_query)) w
  = (inr (PyDict d), w1) →
  dict_get d "operation" PyNone = PyStr "POST" →
  dict_get d "item" PyNone ≠ PyNone →
  dict_get d "change" PyNone ≠ PyNone →
  inventory_link env = None →
  validate_update lib (dict_get d "item" PyNone) (dict_get d "change" PyNone)
  = inr request →
  update_inventory request (store w) = (inr inv', inv') →
  dom (store w) = known_items →
  ∃ t p,
    inv' !! "tshirts" = Some t ∧ inv' !! "pants" = Some p
    ∧ process_natural_language_query lib env nl_query w
      = (inr {| message := "Successfully updated inventory for "
                           ++ py_str lib (dict_get d "item" PyNone) ++ " by "
                           ++ py_str lib (dict_get d "change" PyNone)
                           ++ ". Reasoning: "
                           ++ py_str lib
                                (dict_get d "reasoning"
                                   (PyStr "No specific reasoning provided by LLM."));
                inventory_state := [("tshirts", PyInt t); ("pants", PyInt p)];
                error := None |},
         {| store := inv';
            trace := trace w
                     ++ [GeminiPost (llm_prompt_format (query nl_query));
                         InventoryPost (dict_get d "item" PyNone)
                           (dict_get d "change" PyNone)] |}).
Proof.
  intros Hcall Hop Hitem Hchange Hlink Hvalid Hupd Hdom.
  pose proof (call_gemini_llm_ok _ _ _ _ _ _ Hcall) as Hw1.
  assert (dom inv' = known_items) as Hdom'.
  { rewrite <- Hdom. change inv' with (snd (inr (A := HTTPException) inv', inv')).
    rewrite <- Hupd. apply (step_dom (Update request)). }
  assert (is_Some (inv' !! "tshirts")) as [t Ht].
  { apply elem_of_dom. rewrite Hdom'. unfold known_items.
    rewrite elem_of_union, !elem_of_singleton. by left. }
  assert (is_Some (inv' !! "pants")) as [p Hp].
  { apply elem_of_dom. rewrite Hdom'. unfold known_items.
    rewrite elem_of_union, !elem_of_singleton. by right. }
  exists t, p. split; [exact Ht|]. split; [exact Hp|].
  unfold process_natural_language_query. run_M. rewrite Hcall. simpl.
  rewrite (dict_get_has _ _ _ _ Hop) by discriminate. simpl.
  rewrite Hop. simpl.
  assert (is_None (dict_get d "item" PyNone)
          || is_None (dict_get d "change" PyNone) = false) as ->.
  { destruct (dict_get d "item" PyNone); try congruence;
      destruct (dict_get d "change" PyNone); try congruence; reflexivity. }
  rewrite Hlink, Hvalid. simpl. rewrite Hw1. simpl. rewrite Hupd.
  unfold inventory_response. rewrite Ht, Hp. simpl.
  rewrite <- app_assoc. reflexivity.
Qed.

Lemma write_forwarded_witness :
  let d := [("operation", PyStr "POST"); ("item", PyStr "tshirts");
            ("change", PyInt (-3)); ("reasoning", PyStr "Sold.")] in
  ∃ t p,
    (<["tshirts" := 17]> inventory : gmap string Z) !! "tshirts" = Some t
    ∧ (<["tshirts" := 17]> inventory : gmap string Z) !! "pants" = Some p
    ∧ process_natural_language_query (Sample.library (PyDict d))
        (Sample.environment "key") (mkQuery "I sold 3 t shirts") Sample.world
      = (inr {| message := "Successfully updated inventory for tshirts by -3. Reasoning: Sold.";
                inventory_state := [("tshirts", PyInt t); ("pants", PyInt p)];
                error := None |},
         {| store := <["tshirts" := 17]> inventory;
            trace := [GeminiPost (llm_prompt_format "I sold 3 t shirts");
                      InventoryPost (PyStr "tshirts") (PyInt (-3))] |}).
Proof.
  intros d.
  apply (write_forwarded (Sample.library (PyDict d)) (Sample.environment "key")
           (mkQuery "I sold 3 t shirts") Sample.world
           {| store := inventory;
              trace := [GeminiPost (llm_prompt_format "I sold 3 t shirts")] |} d
           (mkRequest "tshirts" (-3)) (<["tshirts" := 17]> inventory)).
  - vm_compute; reflexivity.
  - reflexivity.
  - discriminate.
  - discriminate.
  - reflexivity.
  - reflexivity.
  - vm_compute; reflexivity.
  - vm_compute; reflexivity.
Defined.

(** X17: when the service refuses the update of a [POST] intent, the caller
    gets an [HTTPException] with the status of the service, whose detail
    wraps the detail of the service and repeats the status; the dictionary
    of the service is not changed. *)
Theorem write_refused
    (lib : Library) (env : Environment) (nl_query : NaturalLanguageQuery)
    (w w1 : World) (d : list (string * pyval))
    (request : InventoryUpdateRequest) (e : HTTPException) :
  call_gemini_llm lib env (llm_prompt_format (query nl_query)) w
  = (inr (PyDict d), w1) →
  dict_get d "operation" PyNone = PyStr "POST" →
  dict_get d "item" PyNone ≠ PyNone →
  dict_get d "change" PyNone ≠ PyNone →
  inventory_link env = None →
  validate_update lib (dict_get d "item" PyNone) (dict_get d "change" PyNone)
  = inr request →
  fst (update_inventory request (store w)) = inl e →
  process_natural_language_query lib env nl_query w
  = (inl (HTTPExc
            {| status_code := 400;
               detail := "Inventory Service returned an error: " ++ detail e
                         ++ " (HTTP 400)" |}),
     {| store := store w;
        trace := trace w
                 ++ [GeminiPost (llm_prompt_format (query nl_query));
                     InventoryPost (dict_get d "item" PyNone)
                       (dict_get d "change" PyNone)] |}).
Proof.
  intros Hcall Hop Hitem Hchange Hlink Hvalid Hupd.
  pose proof (call_gemini_llm_ok _ _ _ _ _ _ Hcall) as Hw1.
  assert (update_inventory request (store w) = (inl e, store w)
          ∧ status_code e = 400) as [Hupd' Hstatus].
  { destruct (update_inventory_cases request (store w))
      as [[_ E] | [(c & _ & _ & E) | (c & _ & _ & E)]];
      rewrite E in Hupd |- *; simpl in Hupd; try discriminate;
      injection Hupd as <-; by split. }
  unfold process_natural_language_query. run_M. rewrite Hcall. simpl.
  rewrite (dict_get_has _ _ _ _ Hop) by discriminate. simpl.
  rewrite Hop. simpl.
  assert (is_None (dict_get d "item" PyNone)
          || is_None (dict_get d "change" PyNone) = false) as ->.
  { destruct (dict_get d "item" PyNone); try congruence;
      destruct (dict_get d "change" PyNone); try congruence; reflexivity. }
  rewrite Hlink, Hvalid. simpl. rewrite Hw1. simpl. rewrite Hupd'.
  unfold error_response. simpl. rewrite Hstatus. simpl.
  rewrite <- app_assoc. reflexivity.
Qed.

Lemma write_refused_witness :
  let d := [("operation", PyStr "POST"); ("item", PyStr "shoes");
            ("change", PyInt 1)] in
  process_natural_language_query (Sample.library (PyDict d))
    (Sample.environment "key") (mkQuery "Add a shoe") Sample.world
  = (inl (HTTPExc
            {| status_code := 400;
               detail := "Inventory Service returned an error: "
                         ++ detail (InvalidItem "shoes") ++ " (HTTP 400)" |}),
     {| store := store Sample.world;
        trace := [GeminiPost (llm_prompt_format "Add a shoe");
                  InventoryPost (PyStr "shoes") (PyInt 1)] |}).
Proof.
  intros d.
  apply (write_refused (Sample.library (PyDict d)) (Sample.environment "key")
           (mkQuery "Add a shoe") Sample.world
           {| store := inventory;
              trace := [GeminiPost (llm_prompt_format "Add a shoe")] |} d
           (mkRequest "shoes" 1) (InvalidItem "shoes")).
  - vm_compute; reflexivity.
  - reflexivity.
  - discriminate.
  - discriminate.
  - reflexivity.
  - reflexivity.
  - vm_compute; reflexivity.
Defined.

(** X18: a [GET] intent whose item is a non-empty list or dictionary fails
    after the inventory was fetched: the lookup of an unhashable key raises
    [TypeError], and the caller gets an HTTP 500 that names it. *)
Theorem read_unhashable_item
    (lib : Library) (env : Environment) (nl_query : NaturalLanguageQuery)
    (w w1 : World) (d : list (string * pyval)) :
  call_gemini_llm lib env (llm_prompt_format (query nl_query)) w
  = (inr (PyDict d), w1) →
  dict_get d "operation" PyNone = PyStr "GET" →
  py_truthy (dict_get d "item" PyNone) = true →
  hashable (dict_get d "item" PyNone) = false →
  inventory_link env = None →
  dom (store w) = known_items →
  process_natural_language_query lib env nl_query w
  = (inl (HTTPExc
            {| status_code := 500;
               detail := "An unexpected error occurred: TypeError: "
                         ++ unhashable_message lib (dict_get d "item" PyNone) |}),
     {| store := store w;
        trace := trace w ++ [GeminiPost (llm_prompt_format (query nl_query));
                             InventoryGet] |}).
Proof.
  intros Hcall Hop Htruthy Hhash Hlink Hdom.
  pose proof (call_gemini_llm_ok _ _ _ _ _ _ Hcall) as Hw1.
  assert (is_Some (store w !! "tshirts")) as [t Ht].
  { apply elem_of_dom. rewrite Hdom. unfold known_items.
    rewrite elem_of_union, !elem_of_singleton. by left. }
  assert (is_Some (store w !! "pants")) as [p Hp].
  { apply elem_of_dom. rewrite Hdom. unfold known_items.
    rewrite elem_of_union, !elem_of_singleton. by right. }
  unfold process_natural_language_query. run_M. rewrite Hcall. simpl.
  rewrite (dict_get_has _ _ _ _ Hop) by discriminate. simpl.
  rewrite Hop, Hlink. simpl. rewrite Hw1. simpl.
  unfold inventory_response. rewrite Ht, Hp.
  remember [("tshirts", PyInt t); ("pants", PyInt p)] as body eqn:Hbody.
  simpl. rewrite Htruthy. rewrite <- app_assoc.
  destruct (dict_get d "item" PyNone); try discriminate; reflexivity.
Qed.

Lemma read_unhashable_item_witness :
  let d := [("operation", PyStr "GET"); ("item", PyList [PyStr "tshirts"])] in
  process_natural_language_query (Sample.library (PyDict d))
    (Sample.environment "key") (mkQuery "How many tshirts?") Sample.world
  = (inl (HTTPExc
            {| status_code := 500;
               detail := "An unexpected error occurred: TypeError: "
                         ++ unhashable_message (Sample.library (PyDict d))
                              (PyList [PyStr "tshirts"]) |}),
     {| store := store Sample.world;
        trace := [GeminiPost (llm_prompt_format "How many tshirts?");
                  InventoryGet] |}).
Proof.
  intros d.
  apply (read_unhashable_item (Sample.library (PyDict d)) (Sample.environment "key")
           (mkQuery "How many tshirts?") Sample.world
           {| store := inventory;
              trace := [GeminiPost (llm_prompt_format "How many tshirts?")] |} d).
  - vm_compute; reflexivity.
  - reflexivity.
  - reflexivity.
  - reflexivity.
  - reflexivity.
  - vm_compute; reflexivity.
Defined.

(** X19: when the body of a [POST] intent does not pass the validation of
    the inventory service, the caller gets an HTTP 422 whose detail wraps the
    detail of the validation; the dictionary of the service is not changed. *)
Theorem write_invalid_body
    (lib : Library) (env : Environment) (nl_query : NaturalLanguageQuery)
    (w w1 : World) (d : list (string * pyval)) (detail422 : pyval) :
  call_gemini_llm lib env (llm_prompt_format (query nl_query)) w
  = (inr (PyDict d), w1) →
  dict_get d "operation" PyNone = PyStr "POST" →
  dict_get d "item" PyNone ≠ PyNone →
  dict_get d "change" PyNone ≠ PyNone →
  inventory_link env = None →
  validate_update lib (dict_get d "item" PyNone) (dict_get d "change" PyNone)
  = inl detail422 →
  process_natural_language_query lib env nl_query w
  = (inl (HTTPExc
            {| status_code := 422;
               detail := "Inventory Service returned an error: "
                         ++ py_str lib detail422 ++ " (HTTP 422)" |}),
     {| store := store w;
        trace := trace w
                 ++ [GeminiPost (llm_prompt_format (query nl_query));
                     InventoryPost (dict_get d "item" PyNone)
                       (dict_get d "change" PyNone)] |}).
Proof.
  intros Hcall Hop Hitem Hchange Hlink Hvalid.
  pose proof (call_gemini_llm_ok _ _ _ _ _ _ Hcall) as Hw1.
  unfold process_natural_language_query. run_M. rewrite Hcall. simpl.
  rewrite (dict_get_has _ _ _ _ Hop) by discriminate. simpl.
  rewrite Hop. simpl.
  assert (is_None (dict_get d "item" PyNone)
          || is_None (dict_get d "change" PyNone) = false) as ->.
  { destruct (dict_get d "item" PyNone); try congruence;
      destruct (dict_get d "change" PyNone); try congruence; reflexivity. }
  rewrite Hlink, Hvalid. simpl. rewrite Hw1. simpl.
  rewrite <- app_assoc. reflexivity.
Qed.

Lemma write_invalid_body_witness :
  let d := [("operation", PyStr "POST"); ("item", PyStr "pants");
            ("change", PyStr "many")] in
  process_natural_language_query (Sample.library (PyDict d))
    (Sample.environment "key") (mkQuery "Add many pants") Sample.world
  = (inl (HTTPExc
            {| status_code := 422;
               detail := "Inventory Service returned an error: "
                         ++ py_str (Sample.library (PyDict d)) (PyList [])
                         ++ " (HTTP 422)" |}),
     {| store := store Sample.world;
        trace := [GeminiPost (llm_prompt_format "Add many pants");
                  InventoryPost (PyStr "pants") (PyStr "many")] |}).
Proof.
  intros d.
  apply (write_invalid_body (Sample.library (PyDict d)) (Sample.environment "key")
           (mkQuery "Add many pants") Sample.world
           {| store := inventory;
              trace := [GeminiPost (llm_prompt_format "Add many pants")] |} d
           (PyList [])).
  - vm_compute; reflexivity.
  - reflexivity.
  - discriminate.
  - discriminate.
  - reflexivity.
  - reflexivity.
Defined.

(** With both keys present, the response model of the service is met. *)
Lemma inventory_response_ok (lib : Library) (inv : gmap string Z) :
  dom inv = known_items →
  ∃ t p, inventory_response lib inv
         = json_response lib 200 (PyDict [("tshirts", PyInt t); ("pants", PyInt p)]).
Proof.
  intros Hdom.
  assert (is_Some (inv !! "tshirts")) as [t Ht].
  { apply elem_of_dom. rewrite Hdom. unfold known_items.
    rewrite elem_of_union, !elem_of_singleton. by left. }
  assert (is_Some (inv !! "pants")) as [p Hp].
  { apply elem_of_dom. rewrite Hdom. unfold known_items.
    rewrite elem_of_union, !elem_of_singleton. by right. }
  exists t, p. unfold inventory_response. by rewrite Ht, Hp.
Qed.

(** Closes a leaf of the case analysis of [process_outcome]. *)
Ltac outcome_leaf :=
  intros [= <- <-]; simpl;
  split; [eauto|];
  split; [eauto|];
  rewrite <- ?app_assoc; eexists; split; [reflexivity | simpl; eauto 8].

(** What one call of [process_natural_language_query] can do: it returns or
    raises an [HTTPException]; the dictionary of the service is the same or
    the result of one update; the requests sent are none, the post to the
    model, or that post followed by one request to the service. *)
Lemma process_outcome
    (lib : Library) (env : Environment) (nl_query : NaturalLanguageQuery)
    (w w' : World) (r : exn + MCPResponse) :
  dom (store w) = known_items →
  process_natural_language_query lib env nl_query w = (r, w') →
  ((∃ e, r = inl (HTTPExc e)) ∨ (∃ m, r = inr m))
  ∧ (store w' = store w
     ∨ ∃ request, store w' = step (Update request) (store w))
  ∧ ∃ l, trace w' = (trace w ++ l)%list
         ∧ (l = []
            ∨ l = [GeminiPost (llm_prompt_format (query nl_query))]
            ∨ l = [GeminiPost (llm_prompt_format (query nl_query)); InventoryGet]
            ∨ ∃ item change,
                l = [GeminiPost (llm_prompt_format (query nl_query));
                     InventoryPost item change]).
Proof.
  intros Hdom. unfold process_natural_language_query. run_M.
  destruct (call_gemini_llm lib env (llm_prompt_format (query nl_query)) w)
    as [[x|v] w1] eqn:Hcall.
  { destruct (call_gemini_llm_raises _ _ _ _ _ _ Hcall) as [e ->].
    destruct (call_gemini_llm_world _ _ _ _ _ _ Hcall) as [Hs [Ht|Ht]];
      intros [= <- <-]; (split; [eauto|]); (split; [eauto|]); rewrite Ht.
    - exists []. split; [by rewrite app_nil_r | by left].
    - eexists. split; [reflexivity | right; by left]. }
  rewrite (call_gemini_llm_ok _ _ _ _ _ _ Hcall). clear Hcall w1.
  destruct v as [| | | | | |d]; simpl; try outcome_leaf.
  destruct (dict_has d "operation"); simpl; [|outcome_leaf].
  destruct (py_eq_str (dict_get d "operation" PyNone) "GET").
  { destruct (inventory_link env); simpl; [outcome_leaf|].
    destruct (inventory_response_ok lib (store w) Hdom) as (t & p & ->).
    remember [("tshirts", PyInt t); ("pants", PyInt p)] as body eqn:Hbody.
    simpl. destruct (py_truthy (dict_get d "item" PyNone)); [|outcome_leaf].
    destruct (dict_get d "item" PyNone); simpl; outcome_leaf. }
  destruct (py_eq_str (dict_get d "operation" PyNone) "POST"); [|outcome_leaf].
  destruct (is_None (dict_get d "item" PyNone)
            || is_None (dict_get d "change" PyNone)); [outcome_leaf|].
  destruct (inventory_link env); simpl; [outcome_leaf|].
  destruct (validate_update lib _ _) as [detail422|request]; simpl;
    [outcome_leaf|].
  destruct (update_inventory_cases request (store w))
    as [[_ E] | [(c & _ & _ & E) | (c & Hk & Hpos & E)]]; rewrite E; simpl;
    try outcome_leaf.
  assert (dom (<[lower (item request) := c + change request]> (store w))
          = known_items) as Hdom'.
  { rewrite <- Hdom. rewrite dom_insert_L.
    apply (elem_of_dom_2 (D := gset string)) in Hk.
    apply subseteq_union_1_L, singleton_subseteq_l, Hk. }
  destruct (inventory_response_ok lib _ Hdom') as (t & p & ->). simpl.
  intros [= <- <-]; simpl. split; [eauto|]. split.
  - right. exists request. simpl. by rewrite E.
  - rewrite <- app_assoc. eexists. split; [reflexivity | simpl; eauto 8].
Qed.

Lemma run_snoc (cs : list call) (c : call) (inv : gmap string Z) :
  run (cs ++ [c]) inv = step c (run cs inv).
Proof.
  revert inv. induction cs as [|c' cs IH]; intros inv; simpl; [reflexivity|].
  apply IH.
Qed.

(** X20: as long as the inventory service holds its two keys, whatever
    [process_natural_language_query] raises is an [HTTPException]: no other
    exception escapes its handlers. *)
Theorem process_failures_are_http
    (lib : Library) (env : Environment) (nl_query : NaturalLanguageQuery)
    (w w' : World) (x : exn) :
  dom (store w) = known_items →
  process_natural_language_query lib env nl_query w = (inl x, w') →
  ∃ e, x = HTTPExc e.
Proof.
  intros Hdom Hrun.
  destruct (process_outcome _ _ _ _ _ _ Hdom Hrun) as ([[e He] | [m Hm]] & _).
  - injection He as ->. by exists e.
  - discriminate.
Qed.

Lemma process_failures_are_http_witness :
  ∃ e, HTTPExc {| status_code := 400;
                  detail := "LLM returned an unsupported operation: 'DELETE'. LLM Reasoning: No specific reasoning provided by LLM." |}
       = HTTPExc e.
Proof.
  apply (process_failures_are_http
           (Sample.library (PyDict [("operation", PyStr "DELETE")]))
           (Sample.environment "key") (mkQuery "Remove pants") Sample.world
           {| store := inventory;
              trace := [GeminiPost (llm_prompt_format "Remove pants")] |}).
  - vm_compute; reflexivity.
  - vm_compute; reflexivity.
Defined.

(** X21: a query moves the dictionary of the inventory service only along
    the calls of the service itself: if the dictionary was reached from the
    initial one by a sequence of calls, the dictionary after the query is
    reached by that sequence and one more call, so it keeps the two keys and
    has no negative count. *)
Theorem process_keeps_store_reachable
    (lib : Library) (env : Environment) (nl_query : NaturalLanguageQuery)
    (w w' : World) (r : exn + MCPResponse) (cs : list call) :
  store w = run cs inventory →
  process_natural_language_query lib env nl_query w = (r, w') →
  ∃ c, store w' = run (cs ++ [c]) inventory
       ∧ dom (store w') = known_items
       ∧ ∀ k v, store w' !! k = Some v → 0 ≤ v.
Proof.
  intros Hreach Hrun.
  assert (dom (store w) = known_items) as Hdom
    by (rewrite Hreach, run_dom; apply inventory_dom).
  destruct (process_outcome _ _ _ _ _ _ Hdom Hrun)
    as (_ & [Hs | [request Hs]] & _).
  - exists Read. rewrite run_snoc. simpl. rewrite <- Hreach, Hs.
    split; [reflexivity|]. split; [exact Hdom|].
    rewrite Hreach. apply run_nonneg, inventory_nonneg.
  - exists (Update request). rewrite run_snoc, <- Hreach, Hs.
    split; [reflexivity|]. split.
    + by rewrite step_dom.
    + apply step_nonneg. rewrite Hreach. apply run_nonneg, inventory_nonneg.
Qed.

Lemma process_keeps_store_reachable_witness :
  let w' := {| store := <["tshirts" := 17]> inventory;
               trace := [GeminiPost (llm_prompt_format "I sold 3 t shirts");
                         InventoryPost (PyStr "tshirts") (PyInt (-3))] |} in
  ∃ c, store w' = run ([Read] ++ [c]) inventory
       ∧ dom (store w') = known_items
       ∧ ∀ k v, store w' !! k = Some v → 0 ≤ v.
Proof.
  intros w'.
  apply (process_keeps_store_reachable
           (Sample.library
              (PyDict [("operation", PyStr "POST"); ("item", PyStr "tshirts");
                       ("change", PyInt (-3))]))
           (Sample.environment "key") (mkQuery "I sold 3 t shirts") Sample.world w'
           (inr {| message := "Successfully updated inventory for tshirts by -3. Reasoning: No specific reasoning provided by LLM.";
                   inventory_state := [("tshirts", PyInt 17); ("pants", PyInt 15)];
                   error := None |})
           [Read]).
  - vm_compute; reflexivity.
  - vm_compute; reflexivity.
Defined.

(** X22: one query sends at most two requests, in this order: the post of
    the prompt to the model, then at most one request to the inventory
    service; without the first there is no second. *)
Theorem process_requests
    (lib : Library) (env : Environment) (nl_query : NaturalLanguageQuery)
    (w w' : World) (r : exn + MCPResponse) :
  dom (store w) = known_items →
  process_natural_language_query lib env nl_query w = (r, w') →
  ∃ l, trace w' = (trace w ++ l)%list
       ∧ (l = []
          ∨ l = [GeminiPost (llm_prompt_format (query nl_query))]
          ∨ l = [GeminiPost (llm_prompt_format (query nl_query)); InventoryGet]
          ∨ ∃ item change,
              l = [GeminiPost (llm_prompt_format (query nl_query));
                   InventoryPost item change]).
Proof.
  intros Hdom Hrun.
  by destruct (process_outcome _ _ _ _ _ _ Hdom Hrun) as (_ & _ & Hl).
Qed.

Lemma process_requests_witness :
  ∃ l, [GeminiPost (llm_prompt_format "Check inventory"); InventoryGet]
       = (trace Sample.world ++ l)%list
       ∧ (l = []
          ∨ l = [GeminiPost (llm_prompt_format (query (mkQuery "Check inventory")))]
          ∨ l = [GeminiPost (llm_prompt_format (query (mkQuery "Check inventory")));
                 InventoryGet]
          ∨ ∃ item change,
              l = [GeminiPost (llm_prompt_format (query (mkQuery "Check inventory")));
                   InventoryPost item change]).
Proof.
  apply (process_requests
           (Sample.library (PyDict [("operation", PyStr "GET")]))
           (Sample.environment "key") (mkQuery "Check inventory") Sample.world
           {| store := inventory;
              trace := [GeminiPost (llm_prompt_format "Check inventory");
                        InventoryGet] |}
           (inr {| message := "Successfully retrieved inventory. Reasoning: No specific reasoning provided by LLM.";
                   inventory_state := [("tshirts", PyInt 20); ("pants", PyInt 15)];
                   error := None |})).
  - vm_compute; reflexivity.
  - vm_compute; reflexivity.
Defined.

(** * The prompt *)

Lemma string_length_append (s t : string) :
  String.length (s ++ t) = (String.length s + String.length t)%nat.
Proof. induction s as [|c s IH]; simpl; [reflexivity | by rewrite IH]. Qed.

Lemma string_append_inv_head (s a b : string) : s ++ a = s ++ b → a = b.
Proof. induction s as [|c s IH]; simpl; [done|]. intros [= H]. auto. Qed.

Lemma string_append_inv_tail (t a b : string) : a ++ t = b ++ t → a = b.
Proof.
  revert b. induction a as [|c a IH]; intros [|c' b] H.
  - reflexivity.
  - apply (f_equal String.length) in H.
    change (String.length t = S (String.length (b ++ t))) in H.
    pose proof (string_length_append b t). lia.
  - apply (f_equal String.length) in H.
    change (S (String.length (a ++ t)) = String.length t) in H.
    pose proof (string_length_append a t). lia.
  - change (String c (a ++ t) = String c' (b ++ t)) in H.
    injection H as -> H. f_equal. by apply IH.
Qed.

Lemma string_append_assoc (s t u : string) : (s ++ t) ++ u = s ++ t ++ u.
Proof.
  induction s as [|c s IH]; [reflexivity|].
  change (String c ((s ++ t) ++ u) = String c (s ++ t ++ u)). by f_equal.
Qed.

Lemma q_append (s rest : string) : q s ++ rest = dq ++ s ++ dq ++ rest.
Proof.
  unfold q. rewrite string_append_assoc. f_equal. apply string_append_assoc.
Qed.

(** The prompt is a fixed text, the query between double quotes, and a fixed
    end. *)
Lemma llm_prompt_format_shape (user_query : string) :
  llm_prompt_format user_query
  = substring 0 (String.length (llm_prompt_format EmptyString) - 18)
      (llm_prompt_format EmptyString)
    ++ q user_query ++ nl ++ "JSON Response:" ++ nl.
Proof. vm_compute. exact eq_refl. Qed.

(** X23: the prompt sent to the model is a text that does not depend on the
    query, followed by the query between double quotes, exactly as the user
    gave it (nothing in it is escaped), and by the line "JSON Response:". *)
Theorem prompt_embeds_query :
  ∃ head : string, ∀ user_query : string,
    llm_prompt_format user_query
    = head ++ dq ++ user_query ++ dq ++ nl ++ "JSON Response:" ++ nl.
Proof.
  exists (substring 0 (String.length (llm_prompt_format EmptyString) - 18)
            (llm_prompt_format EmptyString)).
  intros user_query. rewrite llm_prompt_format_shape.
  generalize (substring 0 (String.length (llm_prompt_format EmptyString) - 18)
                (llm_prompt_format EmptyString)).
  intros head. f_equal. apply q_append.
Qed.

(** X24: two queries with the same prompt are the same query. *)
Theorem llm_prompt_format_inj (a b : string) :
  llm_prompt_format a = llm_prompt_format b → a = b.
Proof.
  intros H.
  pose proof (llm_prompt_format_shape a) as Ha.
  pose proof (llm_prompt_format_shape b) as Hb.
  revert Ha Hb.
  generalize (substring 0 (String.length (llm_prompt_format EmptyString) - 18)
                (llm_prompt_format EmptyString)).
  intros head Ha Hb. rewrite Ha, Hb in H. clear Ha Hb.
  apply string_append_inv_head in H. rewrite !q_append in H.
  apply string_append_inv_head in H.
  by apply string_append_inv_tail in H.
Qed.

Lemma llm_prompt_format_inj_witness : "Add 5 pants" = "Add 5 pants".
Proof.
  apply (llm_prompt_format_inj "Add 5 pants" "Add 5 pants"). reflexivity.
Defined.
